(** * Solana Tracker MCP server: the tool catalog and the call-tool dispatcher

    A shallow embedding of [build/index.js].  The file registers two request
    handlers on the MCP server: the list-tools handler, which returns a fixed
    array of tool descriptors, and the call-tool handler, which is one
    [switch] on [request.params.name] whose cases forward the call to the
    Solana Tracker REST API through a shared axios instance.

    What is modelled, and how:
    - JavaScript values as the inductive [value]; an object is a finite map
      from property names to values;
    - the outbound HTTP traffic as the list of requests an invocation hands
      to axios, the answer of axios to each of them being given by an
      [upstream] oracle (fulfilled with a response, or rejected);
    - [return], [throw], [try]/[catch]/[finally] and the fall-through of
      [switch] cases through the completion of a statement;
    - the module-level [axiosInstance] as the state the handler runs in.

    The last case of the [switch] ([get_tokens_multi_graduated]) is cut off in
    the source in the middle of a template literal; it is modelled with the
    statements that are present in the text. *)

From Stdlib Require Import Ascii.
From stdpp Require Import gmap strings list pretty.

Set Warnings "-register-all".

(** ** JavaScript values *)

(** Numbers are restricted to integers, rendered in decimal (which is what
    JavaScript prints for integers of magnitude below 10^21). *)
Inductive value : Type :=
  | VUndefined
  | VNull
  | VBool (b : bool)
  | VNum (n : Z)
  | VStr (s : string)
  | VArr (l : list value)
  | VObj (m : gmap string value).

(** [o.k]: the value of an own property, [undefined] when there is none. *)
Definition prop (o : gmap string value) (k : string) : value :=
  default VUndefined (o !! k).

(** [Array.prototype.join] on strings already rendered. *)
Definition join (sep : string) (l : list string) : string :=
  match l with
  | [] => ""
  | x :: xs => foldl (fun acc y => acc +:+ sep +:+ y) x xs
  end.

(** The string a template literal [`${v}`] puts in place of [v]. *)
Fixpoint ToString (v : value) : string :=
  match v with
  | VUndefined => "undefined"
  | VNull => "null"
  | VBool true => "true"
  | VBool false => "false"
  | VNum n => pretty n
  | VStr s => s
  | VArr l =>
      join "," (map (fun x => match x with
                              | VUndefined | VNull => ""
                              | _ => ToString x
                              end) l)
  | VObj _ => "[object Object]"
  end.

(** ** What the MCP SDK and axios provide *)

(** The members of the SDK's [ErrorCode] enumeration (the JSON-RPC codes). *)
Inductive ErrorCode : Type :=
  | ParseError
  | InvalidRequest
  | MethodNotFound
  | InvalidParams
  | InternalError.

(** Thrown values: an error of axios, an [McpError] built with a code and a
    message, or any other error object. *)
Inductive exn : Type :=
  | AxiosError (msg : string)
  | McpError (code : ErrorCode) (msg : string)
  | OtherError (msg : string).

Definition isAxiosError (error : exn) : bool :=
  match error with
  | AxiosError _ => true
  | _ => false
  end.

Inductive Method : Type := GET | POST | PUT | PATCH | DELETE | HEAD | OPTIONS.

(** The configuration [axios.create] is called with. *)
Record AxiosInstance : Type := {
  baseURL : string;
  headers : gmap string string
}.

(** One request handed to axios: the verb, the instance configuration it is
    sent with, the url argument and the [params] of the request config (in
    the order the object literal lists them; [[]] when the call has no
    config). *)
Record Request : Type := {
  method : Method;
  req_baseURL : string;
  req_headers : gmap string string;
  url : string;
  params : list (string * value)
}.

Record Response : Type := {
  status : Z;
  statusText : string;
  data : value
}.

(** How the promise of [axiosInstance.get] settles. *)
Inductive settled (A : Type) : Type :=
  | Fulfilled (a : A)
  | Rejected (e : exn).
Arguments Fulfilled {A} a.
Arguments Rejected {A} e.

Definition upstream : Type := Request -> settled Response.

(** axios serialises the entries of [params] whose value is neither
    [undefined] nor [null]; the others leave no trace in the query string. *)
Definition nullish (v : value) : bool :=
  match v with
  | VUndefined | VNull => true
  | _ => false
  end.

Definition serialized (ps : list (string * value)) : list (string * value) :=
  filter (fun kv => nullish kv.2 = false) ps.

(** axios prepends [baseURL] to a url unless the url is absolute (a scheme
    or a leading double slash).  A url that starts with one slash followed
    by something else is relative. *)
Definition relative (u : string) : bool :=
  match u with
  | String "/"%char EmptyString => true
  | String "/"%char (String c _) => negb (Ascii.eqb c "/"%char)
  | _ => false
  end.

(** ** Module state *)

(** [const axiosInstance = axios.create({...})]. *)
Definition axios_create (API_KEY : string) : AxiosInstance :=
  {| baseURL := "https://data.solanatracker.io";
     headers := {[ "x-api-key" := API_KEY ]} |}.

Record state : Type := {
  axiosInstance : AxiosInstance
}.

(** Loading the module: [API_KEY] is read from the environment, and a
    missing or empty key is a thrown [Error]. *)
Definition load (env : gmap string string) : settled state :=
  match env !! "SOLANA_TRACKER_API_KEY" with
  | None | Some "" =>
      Rejected (OtherError "SOLANA_TRACKER_API_KEY environment variable is required")
  | Some API_KEY => Fulfilled {| axiosInstance := axios_create API_KEY |}
  end.

(** ** Statements *)

(** How a statement completes: normally (control goes to the next
    statement), by [return v], or by [throw e]. *)
Inductive completion (A : Type) : Type :=
  | Normal (a : A)
  | Return (v : value)
  | Throw (e : exn).
Arguments Normal {A} a.
Arguments Return {A} v.
Arguments Throw {A} e.

Record run (A : Type) : Type := Ran {
  completed : completion A;
  issued : list Request;
  after : state
}.
Arguments Ran {A}.
Arguments completed {A}.
Arguments issued {A}.
Arguments after {A}.

Definition M (A : Type) : Type := state -> upstream -> run A.

Definition pure {A} (a : A) : M A := fun s _ => Ran (Normal a) [] s.

Definition seq {A B} (m : M A) (k : A -> M B) : M B := fun s u =>
  let r := m s u in
  match completed r with
  | Normal a =>
      let r' := k a (after r) u in
      Ran (completed r') (issued r ++ issued r') (after r')
  | Return v => Ran (Return v) (issued r) (after r)
  | Throw e => Ran (Throw e) (issued r) (after r)
  end.

#[global] Instance M_ret : MRet M := @pure.
#[global] Instance M_bind : MBind M := fun A B k m => seq m k.

Definition return_ {A} (v : value) : M A := fun s _ => Ran (Return v) [] s.
Definition throw {A} (e : exn) : M A := fun s _ => Ran (Throw e) [] s.

(** [try { body } catch (error) { handler }] *)
Definition try_catch {A} (body : M A) (handler : exn -> M A) : M A := fun s u =>
  let r := body s u in
  match completed r with
  | Throw e =>
      let r' := handler e (after r) u in
      Ran (completed r') (issued r ++ issued r') (after r')
  | _ => r
  end.

(** [try { body } finally { fin }]: the completion of [body] stands unless
    [fin] itself returns or throws. *)
Definition try_finally {A} (body : M A) (fin : M unit) : M A := fun s u =>
  let r := body s u in
  let r' := fin (after r) u in
  Ran (match completed r' with
       | Normal _ => completed r
       | Return v => Return v
       | Throw e => Throw e
       end) (issued r ++ issued r') (after r').

(** The request [axiosInstance.get(url, { params })] hands to axios. *)
Definition GET_request (s : state) (url : string) (params : list (string * value))
  : Request :=
  {| method := GET;
     req_baseURL := baseURL (axiosInstance s);
     req_headers := headers (axiosInstance s);
     url := url;
     params := params |}.

(** [await axiosInstance.get(url, { params })] *)
Definition get (url : string) (params : list (string * value)) : M Response :=
  fun s u =>
    let request := GET_request s url params in
    match u request with
    | Fulfilled response => Ran (Normal response) [request] s
    | Rejected e => Ran (Throw e) [request] s
    end.

(** [const { ... } = request.params.arguments]: destructuring throws a
    [TypeError] when [arguments] is [undefined] (the field is optional in the
    call-tool request). *)
Definition destructure (arguments : option (gmap string value))
  : M (gmap string value) :=
  match arguments with
  | Some args => pure args
  | None =>
      throw (OtherError "Cannot destructure 'request.params.arguments' as it is undefined.")
  end.

(** ** The tool catalog (the list-tools handler) *)

Record Property : Type := {
  p_type : string;
  p_description : string
}.

(** An [inputSchema] literal; [{}] has none of the three fields. *)
Record InputSchema : Type := {
  type : option string;
  properties : option (list (string * Property));
  required : option (list string)
}.

Record ToolDescriptor : Type := {
  name : string;
  description : string;
  inputSchema : InputSchema
}.

Definition tools : list ToolDescriptor := [
  {| name := "get_token_information";
     description := "Retrieve all information for a specific token.";
     inputSchema :=
       {| type := Some "object";
          properties := Some [
           ("tokenAddress", {| p_type := "string";
                      p_description := "The address of the token." |}) ];
          required := Some ["tokenAddress"] |} |};
  {| name := "get_token_information_by_pool";
     description := "Retrieve all information for a specific token by searching by pool address.";
     inputSchema :=
       {| type := Some "object";
          properties := Some [
           ("poolAddress", {| p_type := "string";
                      p_description := "The address of the pool." |}) ];
          required := Some ["poolAddress"] |} |};
  {| name := "get_token_holders_top";
     description := "Get the top 20 holders for a token.";
     inputSchema :=
       {| type := Some "object";
          properties := Some [
           ("tokenAddress", {| p_type := "string";
                      p_description := "The address of the token." |}) ];
          required := Some ["tokenAddress"] |} |};
  {| name := "get_token_ath";
     description := "Retrieve the all time high price of a token.";
     inputSchema :=
       {| type := Some "object";
          properties := Some [
           ("tokenAddress", {| p_type := "string";
                      p_description := "The address of the token." |}) ];
          required := Some ["tokenAddress"] |} |};
  {| name := "get_tokens_created_by_wallet";
     description := "Retrieve all tokens created by wallet.";
     inputSchema :=
       {| type := Some "object";
          properties := Some [
           ("wallet", {| p_type := "string";
                      p_description := "The address of the wallet." |}) ];
          required := Some ["wallet"] |} |};
  {| name := "search_tokens";
     description := "Search for pools and tokens with support for multiple filtering criteria and pagination.";
     inputSchema :=
       {| type := Some "object";
          properties := Some [
           ("query", {| p_type := "string";
                      p_description := "Search term for token symbol, name, or address" |});
           ("page", {| p_type := "integer";
                      p_description := "Page number for pagination" |});
           ("limit", {| p_type := "integer";
                      p_description := "Number of results per page" |});
           ("sortBy", {| p_type := "string";
                      p_description := "Field to sort by" |});
           ("sortOrder", {| p_type := "string";
                      p_description := "Sort order: asc (ascending) or desc (descending)" |});
           ("showAllPools", {| p_type := "string";
                      p_description := "Return all pools for a token in a response if enabled" |});
           ("minCreatedAt", {| p_type := "integer";
                      p_description := "Minimum creation date in unix time in ms" |});
           ("maxCreatedAt", {| p_type := "integer";
                      p_description := "Maxiumum creation date in unix time in ms" |});
           ("minLiquidity", {| p_type := "number";
                      p_description := "Minimum liquidity in USD" |});
           ("maxLiquidity", {| p_type := "number";
                      p_description := "Maximum liquidity in USD" |});
           ("minMarketCap", {| p_type := "integer";
                      p_description := "Minimum market cap in USD" |});
           ("maxMarketCap", {| p_type := "integer";
                      p_description := "Maximum market cap in USD" |});
           ("minBuys", {| p_type := "string";
                      p_description := "Minimum number of buy transactions" |});
           ("maxBuys", {| p_type := "string";
                      p_description := "Maximum number of buy transactions" |});
           ("minSells", {| p_type := "string";
                      p_description := "Minimum number of sell transactions" |});
           ("maxSells", {| p_type := "string";
                      p_description := "Maximum number of sell transactions" |});
           ("minTotalTransactions", {| p_type := "string";
                      p_description := "Minimum total number of transactions" |});
           ("maxTotalTransactions", {| p_type := "string";
                      p_description := "Maximum total number of transactions" |});
           ("lpBurn", {| p_type := "integer";
                      p_description := "LP token burn percentage" |});
           ("market", {| p_type := "string";
                      p_description := "Market identifier" |});
           ("freezeAuthority", {| p_type := "string";
                      p_description := "Freeze authority address" |});
           ("mintAuthority", {| p_type := "string";
                      p_description := "Mint authority address" |});
           ("deployer", {| p_type := "string";
                      p_description := "Deployer address" |});
           ("showPriceChanges", {| p_type := "boolean";
                      p_description := "Include price change data in response" |}) ];
          required := Some ["query"] |} |};
  {| name := "get_latest_tokens";
     description := "Retrieve the latest 100 tokens.";
     inputSchema :=
       {| type := Some "object";
          properties := Some [
           ("page", {| p_type := "string";
                      p_description := "The page number (1-10)" |}) ];
          required := None |} |};
  {| name := "get_trending_tokens";
     description := "Get the top 100 trending tokens based on transaction volume in the past hour.";
     inputSchema :=
       {| type := None; properties := None; required := None |} |};
  {| name := "get_trending_tokens_timeframe";
     description := "Returns trending tokens for a specific time interval.";
     inputSchema :=
       {| type := Some "object";
          properties := Some [
           ("timeframe", {| p_type := "string";
                      p_description := "Time interval (e.g., 5m, 15m, 30m, 1h, 2h, 3h, 4h, 5h, 6h, 12h, 24h)" |}) ];
          required := Some ["timeframe"] |} |};
  {| name := "get_tokens_volume";
     description := "Retrieve the top 100 tokens sorted by highest volume.";
     inputSchema :=
       {| type := None; properties := None; required := None |} |};
  {| name := "get_tokens_multi_all";
     description := "Get an overview of latest, graduating, and graduated tokens.";
     inputSchema :=
       {| type := None; properties := None; required := None |} |};
  {| name := "get_tokens_multi_graduated";
     description := "Overview of all graduated pumpfun/moonshot tokens.";
     inputSchema :=
       {| type := None; properties := None; required := None |} |};
  {| name := "get_token_price";
     description := "Get price information for a single token.";
     inputSchema :=
       {| type := Some "object";
          properties := Some [
           ("token", {| p_type := "string";
                      p_description := "The token address" |});
           ("priceChanges", {| p_type := "boolean";
                      p_description := "Returns price change percentages for the token up to 24 hours ago" |}) ];
          required := Some ["token"] |} |};
  {| name := "get_token_price_history";
     description := "Get historic price information for a single token.";
     inputSchema :=
       {| type := Some "object";
          properties := Some [
           ("token", {| p_type := "string";
                      p_description := "The token address" |}) ];
          required := Some ["token"] |} |};
  {| name := "get_token_price_history_timestamp";
     description := "Get specific historic price information for a token at a given timestamp.";
     inputSchema :=
       {| type := Some "object";
          properties := Some [
           ("token", {| p_type := "string";
                      p_description := "The token address" |});
           ("timestamp", {| p_type := "integer";
                      p_description := "The target timestamp (unix timestamp)" |}) ];
          required := Some ["token"; "timestamp"] |} |};
  {| name := "get_tokens_price_multi";
     description := "Get price information for multiple tokens (up to 100).";
     inputSchema :=
       {| type := Some "object";
          properties := Some [
           ("tokens", {| p_type := "string";
                      p_description := "Comma-separated list of token addresses" |});
           ("priceChanges", {| p_type := "boolean";
                      p_description := "Returns price change percentages for the tokens up to 24 hours ago" |}) ];
          required := Some ["tokens"] |} |};
  {| name := "get_wallet_tokens";
     description := "Get all tokens in a wallet with current value in USD.";
     inputSchema :=
       {| type := Some "object";
          properties := Some [
           ("owner", {| p_type := "string";
                      p_description := "The wallet address" |}) ];
          required := Some ["owner"] |} |};
  {| name := "get_wallet_tokens_basic";
     description := "Get all tokens in a wallet with current value in USD, more lightweight and faster non cached option.";
     inputSchema :=
       {| type := Some "object";
          properties := Some [
           ("owner", {| p_type := "string";
                      p_description := "The wallet address" |}) ];
          required := Some ["owner"] |} |};
  {| name := "get_wallet_tokens_page";
     description := "Retrieve wallet tokens using pagination with a limit of 250 tokens per request.";
     inputSchema :=
       {| type := Some "object";
          properties := Some [
           ("owner", {| p_type := "string";
                      p_description := "The wallet address" |});
           ("page", {| p_type := "integer";
                      p_description := "The page number" |}) ];
          required := Some ["owner"; "page"] |} |};
  {| name := "get_wallet_trades";
     description := "Get the latest trades of a wallet.";
     inputSchema :=
       {| type := Some "object";
          properties := Some [
           ("owner", {| p_type := "string";
                      p_description := "The wallet address" |});
           ("cursor", {| p_type := "string";
                      p_description := "Cursor for pagination" |}) ];
          required := Some ["owner"] |} |};
  {| name := "get_trades_token";
     description := "Get the latest trades for a token across all pools.";
     inputSchema :=
       {| type := Some "object";
          properties := Some [
           ("tokenAddress", {| p_type := "string";
                      p_description := "The token address" |});
           ("cursor", {| p_type := "string";
                      p_description := "Cursor for pagination" |});
           ("showMeta", {| p_type := "string";
                      p_description := "Set to ‘true’ to add metadata for from and to tokens" |});
           ("parseJupiter", {| p_type := "string";
                      p_description := "Set to ‘true’ to combine all transfers within a Jupiter swap into a single transaction. By default, each transfer is shown separately." |});
           ("hideArb", {| p_type := "string";
                      p_description := "Set to ‘true’ to hide arbitrage or other transactions that don’t have both the ‘from’ and ‘to’ token addresses matching the token parameter." |}) ];
          required := Some ["tokenAddress"] |} |};
  {| name := "get_trades_token_pool";
     description := "Get the latest trades for a specific token and pool pair.";
     inputSchema :=
       {| type := Some "object";
          properties := Some [
           ("tokenAddress", {| p_type := "string";
                      p_description := "The token address" |});
           ("poolAddress", {| p_type := "string";
                      p_description := "The pool address" |});
           ("cursor", {| p_type := "string";
                      p_description := "Cursor for pagination" |});
           ("showMeta", {| p_type := "string";
                      p_description := "Set to ‘true’ to add metadata for from and to tokens" |});
           ("parseJupiter", {| p_type := "string";
                      p_description := "Set to ‘true’ to combine all transfers within a Jupiter swap into a single transaction. By default, each transfer is shown separately." |});
           ("hideArb", {| p_type := "string";
                      p_description := "Set to ‘true’ to hide arbitrage or other transactions that don’t have both the ‘from’ and ‘to’ token addresses matching the token parameter." |}) ];
          required := Some ["tokenAddress"; "poolAddress"] |} |};
  {| name := "get_trades_token_pool_owner";
     description := "Get the latest trades for a specific token, pool, and wallet address.";
     inputSchema :=
       {| type := Some "object";
          properties := Some [
           ("tokenAddress", {| p_type := "string";
                      p_description := "The token address" |});
           ("poolAddress", {| p_type := "string";
                      p_description := "The pool address" |});
           ("owner", {| p_type := "string";
                      p_description := "The wallet address" |});
           ("cursor", {| p_type := "string";
                      p_description := "Cursor for pagination" |});
           ("showMeta", {| p_type := "string";
                      p_description := "Set to ‘true’ to add metadata for from and to tokens" |});
           ("parseJupiter", {| p_type := "string";
                      p_description := "Set to ‘true’ to combine all transfers within a Jupiter swap into a single transaction. By default, each transfer is shown separately." |});
           ("hideArb", {| p_type := "string";
                      p_description := "Set to ‘true’ to hide arbitrage or other transactions that don’t have both the ‘from’ and ‘to’ token addresses matching the token parameter." |}) ];
          required := Some ["tokenAddress"; "poolAddress"; "owner"] |} |};
  {| name := "get_trades_token_by_wallet";
     description := "Get the latest trades for a specific token and wallet address.";
     inputSchema :=
       {| type := Some "object";
          properties := Some [
           ("tokenAddress", {| p_type := "string";
                      p_description := "The token address" |});
           ("owner", {| p_type := "string";
                      p_description := "The wallet address" |});
           ("cursor", {| p_type := "string";
                      p_description := "Cursor for pagination" |});
           ("showMeta", {| p_type := "string";
                      p_description := "Set to ‘true’ to add metadata for from and to tokens" |});
           ("parseJupiter", {| p_type := "string";
                      p_description := "Set to ‘true’ to combine all transfers within a Jupiter swap into a single transaction. By default, each transfer is shown separately." |});
           ("hideArb", {| p_type := "string";
                      p_description := "Set to ‘true’ to hide arbitrage or other transactions that don’t have both the ‘from’ and ‘to’ token addresses matching the token parameter." |}) ];
          required := Some ["tokenAddress"; "owner"] |} |};
  {| name := "get_chart_token";
     description := "Get OLCVH (Open, Low, Close, Volume, High) data for charts for a token.";
     inputSchema :=
       {| type := Some "object";
          properties := Some [
           ("token", {| p_type := "string";
                      p_description := "The token address" |});
           ("type", {| p_type := "string";
                      p_description := "Time interval (e.g., “1s”, “1m”, “1h”, “1d”)" |});
           ("time_from", {| p_type := "integer";
                      p_description := "Start time (Unix timestamp in seconds)" |});
           ("time_to", {| p_type := "integer";
                      p_description := "End time (Unix timestamp in seconds)" |});
           ("marketCap", {| p_type := "string";
                      p_description := "Return chart for market cap instead of pricing" |});
           ("removeOutliers", {| p_type := "string";
                      p_description := "Set to false to disable outlier removal, true by default." |}) ];
          required := Some ["token"] |} |};
  {| name := "get_chart_token_pool";
     description := "Get OLCVH (Open, Low, Close, Volume, High) data for charts for a token and pool.";
     inputSchema :=
       {| type := Some "object";
          properties := Some [
           ("token", {| p_type := "string";
                      p_description := "The token address" |});
           ("pool", {| p_type := "string";
                      p_description := "The pool address" |});
           ("type", {| p_type := "string";
                      p_description := "Time interval (e.g., “1s”, “1m”, “1h”, “1d”)" |});
           ("time_from", {| p_type := "integer";
                      p_description := "Start time (Unix timestamp in seconds)" |});
           ("time_to", {| p_type := "integer";
                      p_description := "End time (Unix timestamp in seconds)" |});
           ("marketCap", {| p_type := "string";
                      p_description := "Return chart for market cap instead of pricing" |});
           ("removeOutliers", {| p_type := "string";
                      p_description := "Set to false to disable outlier removal, true by default." |}) ];
          required := Some ["token"; "pool"] |} |};
  {| name := "get_pnl_wallet";
     description := "Get Profit and Loss data for all positions of a wallet.";
     inputSchema :=
       {| type := Some "object";
          properties := Some [
           ("wallet", {| p_type := "string";
                      p_description := "The wallet address" |});
           ("showHistoricPnL", {| p_type := "string";
                      p_description := "Adds PnL data for 1d, 7d and 30d intervals (BETA)" |});
           ("holdingCheck", {| p_type := "string";
                      p_description := "Does an extra check to check current holding value in wallet (increases response time)" |});
           ("hideDetails", {| p_type := "string";
                      p_description := "Return only summary for the pnl without seperate data for every token." |}) ];
          required := Some ["wallet"] |} |};
  {| name := "get_first_buyers";
     description := "Retrieve the first 100 buyers of a token with Profit and Loss data for each wallet.";
     inputSchema :=
       {| type := Some "object";
          properties := Some [
           ("token", {| p_type := "string";
                      p_description := "The token address" |}) ];
          required := Some ["token"] |} |};
  {| name := "get_pnl_wallet_token";
     description := "Get Profit and Loss data for a specific token in a wallet.";
     inputSchema :=
       {| type := Some "object";
          properties := Some [
           ("wallet", {| p_type := "string";
                      p_description := "The wallet address" |});
           ("token", {| p_type := "string";
                      p_description := "The token address" |}) ];
          required := Some ["wallet"; "token"] |} |};
  {| name := "get_top_traders_all";
     description := "Get the most profitable traders across all tokens.";
     inputSchema :=
       {| type := Some "object";
          properties := Some [
           ("page", {| p_type := "string";
                      p_description := "The page number" |});
           ("expandPnl", {| p_type := "string";
                      p_description := "Include detailed PnL data for each token if true" |});
           ("sortBy", {| p_type := "string";
                      p_description := "Sort results by metric (“total” or “winPercentage”)" |}) ];
          required := None |} |};
  {| name := "get_top_traders_token";
     description := "Get top 100 traders by PnL for a token.";
     inputSchema :=
       {| type := Some "object";
          properties := Some [
           ("token", {| p_type := "string";
                      p_description := "The token address" |}) ];
          required := Some ["token"] |} |};
  {| name := "get_stats_token_pool";
     description := "Get detailed stats for a token-pool pair over various time intervals.";
     inputSchema :=
       {| type := Some "object";
          properties := Some [
           ("token", {| p_type := "string";
                      p_description := "The token address" |});
           ("pool", {| p_type := "string";
                      p_description := "The pool address" |}) ];
          required := Some ["token"; "pool"] |} |};
  {| name := "get_stats_token";
     description := "Get detailed stats for a token over various time intervals.";
     inputSchema :=
       {| type := Some "object";
          properties := Some [
           ("token", {| p_type := "string";
                      p_description := "The token address" |}) ];
          required := Some ["token"] |} |}
].

(** The handler registered for [ListToolsRequestSchema] returns
    [{ tools: [...] }]. *)
Definition ListTools : list ToolDescriptor := tools.

Definition catalog_names : list string := name <$> ListTools.

(** The parameters a descriptor marks as required. *)
Definition required_of (t : ToolDescriptor) : list string :=
  default [] (required (inputSchema t)).

(** The parameters a descriptor declares. *)
Definition declared_of (t : ToolDescriptor) : list string :=
  fst <$> default [] (properties (inputSchema t)).

(** ** The call-tool handler *)

Section Handler.

(** The [message] property of [new McpError(code, m)].  The class comes with
    the MCP SDK; the handler only reads the property back when a [catch]
    clause wraps an [McpError] thrown inside its own [try] block. *)
Variable McpError_message : ErrorCode -> string -> string.

(** [error.message] *)
Definition message (error : exn) : string :=
  match error with
  | AxiosError m => m
  | McpError code m => McpError_message code m
  | OtherError m => m
  end.

(** [{ content: [{ type: 'json', json: d }] }] *)
Definition content_json (d : value) : value :=
  VObj {[ "content" :=
            VArr [VObj (<[ "type" := VStr "json" ]> {[ "json" := d ]})] ]}.

(** The statements that follow the [await] in every complete [try] block:
<<
    if (response.status !== 200) {
        throw new McpError(ErrorCode.InternalError,
          `Solana Tracker API returned status code: ${response.status}: ${response.statusText}`);
    }
    return { content: [{ type: 'json', json: response.data }] };
>> *)
Definition respond (response : Response) : M unit :=
  if negb (status response =? 200)%Z then
    throw (McpError InternalError
             ("Solana Tracker API returned status code: "
                +:+ ToString (VNum (status response)) +:+ ": "
                +:+ statusText response))
  else
    return_ (content_json (data response)).

(** The [catch] clause that eleven of the twelve cases share word for word:
<<
    if (axios.isAxiosError(error)) {
        throw new McpError(ErrorCode.InternalError, `Solana Tracker API error: ${error.message}`);
    }
    else {
        throw new McpError(ErrorCode.InternalError, `Unknown error: ${error.message}`);
    }
>> *)
Definition rethrow (error : exn) : M unit :=
  if isAxiosError error then
    throw (McpError InternalError ("Solana Tracker API error: " +:+ message error))
  else
    throw (McpError InternalError ("Unknown error: " +:+ message error)).

Definition case_get_token_information (arguments : option (gmap string value)) : M unit :=
  args ← destructure arguments;
  let tokenAddress := prop args "tokenAddress" in
  try_catch
    (response ← get ("/tokens/" +:+ ToString tokenAddress) [];
     respond response)
    rethrow.

Definition case_get_token_information_by_pool (arguments : option (gmap string value)) : M unit :=
  args ← destructure arguments;
  let poolAddress := prop args "poolAddress" in
  try_catch
    (response ← get ("/tokens/by-pool/" +:+ ToString poolAddress) [];
     respond response)
    rethrow.

Definition case_get_token_holders_top (arguments : option (gmap string value)) : M unit :=
  args ← destructure arguments;
  let tokenAddress := prop args "tokenAddress" in
  try_catch
    (response ← get ("/tokens/" +:+ ToString tokenAddress +:+ "/holders/top") [];
     respond response)
    rethrow.

Definition case_get_token_ath (arguments : option (gmap string value)) : M unit :=
  args ← destructure arguments;
  let tokenAddress := prop args "tokenAddress" in
  try_catch
    (response ← get ("/tokens/" +:+ ToString tokenAddress +:+ "/ath") [];
     respond response)
    rethrow.

Definition case_get_tokens_created_by_wallet (arguments : option (gmap string value)) : M unit :=
  args ← destructure arguments;
  let wallet := prop args "wallet" in
  try_catch
    (response ← get ("/deployer/" +:+ ToString wallet) [];
     respond response)
    rethrow.

(** The names [search_tokens] destructures from the arguments and hands on,
    in the same order, as the [params] of its request. *)
Definition search_tokens_params : list string :=
  [ "query"; "page"; "limit"; "sortBy"; "sortOrder"; "showAllPools";
    "minCreatedAt"; "maxCreatedAt"; "minLiquidity"; "maxLiquidity";
    "minMarketCap"; "maxMarketCap"; "minBuys"; "maxBuys"; "minSells";
    "maxSells"; "minTotalTransactions"; "maxTotalTransactions"; "lpBurn";
    "market"; "freezeAuthority"; "mintAuthority"; "deployer";
    "showPriceChanges" ].

Definition case_search_tokens (arguments : option (gmap string value)) : M unit :=
  args ← destructure arguments;
  try_catch
    (response ← get "/search" ((fun k => (k, prop args k)) <$> search_tokens_params);
     respond response)
    rethrow.

(** The one case whose [catch] clause has an empty branch: an axios error is
    dropped and the block completes normally. *)
Definition case_get_latest_tokens (arguments : option (gmap string value)) : M unit :=
  args ← destructure arguments;
  let page := prop args "page" in
  try_catch
    (response ← get "/tokens/latest" [("page", page)];
     respond response)
    (fun error =>
       if isAxiosError error then
         pure ()
       else
         throw (McpError InternalError ("Unknown error: " +:+ message error))).

Definition case_get_trending_tokens (arguments : option (gmap string value)) : M unit :=
  try_catch
    (response ← get "/tokens/trending" [];
     respond response)
    rethrow.

Definition case_get_trending_tokens_timeframe (arguments : option (gmap string value)) : M unit :=
  args ← destructure arguments;
  let timeframe := prop args "timeframe" in
  try_catch
    (response ← get ("/tokens/trending/" +:+ ToString timeframe) [];
     respond response)
    rethrow.

Definition case_get_tokens_volume (arguments : option (gmap string value)) : M unit :=
  try_catch
    (response ← get "/tokens/volume" [];
     respond response)
    rethrow.

Definition case_get_tokens_multi_all (arguments : option (gmap string value)) : M unit :=
  try_catch
    (response ← get "/tokens/multi/all" [];
     respond response)
    rethrow.

(** The words of the template literal at which the source breaks off. *)
Definition cut_off_literal : string := "Solana Tracker API".

(** The last case, as far as the source has it: the request, the status
    test and its [throw], then [finally { }]; no [return] and no [catch]. *)
Definition case_get_tokens_multi_graduated (arguments : option (gmap string value)) : M unit :=
  try_finally
    (response ← get "/tokens/multi/graduated" [];
     if negb (status response =? 200)%Z then
       throw (McpError InternalError cut_off_literal)
     else
       pure ())
    (pure ()).

(** The clauses of the [switch], in source order. *)
Definition cases (arguments : option (gmap string value)) : list (string * M unit) :=
  [ ("get_token_information", case_get_token_information arguments);
    ("get_token_information_by_pool", case_get_token_information_by_pool arguments);
    ("get_token_holders_top", case_get_token_holders_top arguments);
    ("get_token_ath", case_get_token_ath arguments);
    ("get_tokens_created_by_wallet", case_get_tokens_created_by_wallet arguments);
    ("search_tokens", case_search_tokens arguments);
    ("get_latest_tokens", case_get_latest_tokens arguments);
    ("get_trending_tokens", case_get_trending_tokens arguments);
    ("get_trending_tokens_timeframe", case_get_trending_tokens_timeframe arguments);
    ("get_tokens_volume", case_get_tokens_volume arguments);
    ("get_tokens_multi_all", case_get_tokens_multi_all arguments);
    ("get_tokens_multi_graduated", case_get_tokens_multi_graduated arguments) ].

(** Control that reaches the end of a clause body runs into the next one
    (no clause of this [switch] ends in [break]). *)
Fixpoint fall_through (bodies : list (M unit)) : M unit :=
  match bodies with
  | [] => pure ()
  | body :: rest => seq body (fun _ => fall_through rest)
  end.

(** [switch (discriminant) { case label: body ... }] without a [default]
    clause: the first clause whose label is strictly equal to the
    discriminant is entered; when there is none the statement does nothing. *)
Fixpoint switch (discriminant : string) (clauses : list (string * M unit)) : M unit :=
  match clauses with
  | [] => pure ()
  | (label, body) :: rest =>
      if decide (discriminant = label) then fall_through (body :: rest.*2)
      else switch discriminant rest
  end.

(** The body of the handler registered for [CallToolRequestSchema]:
    [try { switch (request.params.name) { ... } } finally { }]. *)
Definition CallTool (name : string) (arguments : option (gmap string value)) : M unit :=
  try_finally (switch name (cases arguments)) (pure ()).

(** One invocation as the caller and the network see it: how the promise of
    the [async] handler settles (falling off the end of the function
    fulfils it with [undefined]), the requests handed to axios in order,
    and the module state afterwards. *)
Record invocation : Type := {
  result : settled value;
  requests : list Request;
  final : state
}.

Definition settle (c : completion unit) : settled value :=
  match c with
  | Normal _ => Fulfilled VUndefined
  | Return v => Fulfilled v
  | Throw e => Rejected e
  end.

Definition invoke (s : state) (u : upstream) (name : string)
    (arguments : option (gmap string value)) : invocation :=
  let r := CallTool name arguments s u in
  {| result := settle (completed r);
     requests := issued r;
     final := after r |}.

(** What the statements shared by the complete cases make of the way the
    request settled: the wrapped body on status 200, and an [McpError]
    otherwise.  A status other than 200 is thrown inside the [try] block, so
    the [catch] clause wraps it a second time as a non-axios error. *)
Definition answer (o : settled Response) : settled value :=
  match o with
  | Fulfilled response =>
      if (status response =? 200)%Z then
        Fulfilled (content_json (data response))
      else
        Rejected (McpError InternalError
          ("Unknown error: " +:+
             McpError_message InternalError
               ("Solana Tracker API returned status code: "
                  +:+ pretty (status response) +:+ ": "
                  +:+ statusText response)))
  | Rejected (AxiosError m) =>
      Rejected (McpError InternalError ("Solana Tracker API error: " +:+ m))
  | Rejected e =>
      Rejected (McpError InternalError ("Unknown error: " +:+ message e))
  end.

End Handler.

(** ** Notions the properties are stated with *)

(** The message format of the SDK's [McpError] class, used to run the
    handler on concrete inputs: [`MCP error ${code}: ${message}`]. *)
Definition code_number (code : ErrorCode) : Z :=
  match code with
  | ParseError => -32700
  | InvalidRequest => -32600
  | MethodNotFound => -32601
  | InvalidParams => -32602
  | InternalError => -32603
  end.

Definition sdk_message (code : ErrorCode) (m : string) : string :=
  "MCP error " +:+ pretty (code_number code) +:+ ": " +:+ m.

(** The labels of the [switch] (they depend neither on the arguments nor on
    the message format). *)
Definition case_labels : list string := (cases sdk_message None).*1.

(** A request that went through the given axios instance: a GET carrying
    the instance's base URL and headers, on a relative url. *)
Definition sent_through (inst : AxiosInstance) (r : Request) : Prop :=
  method r = GET /\ req_baseURL r = baseURL inst /\
  req_headers r = headers inst /\ relative (url r) = true.

(** A statement that leaves the module state as it found it and talks to
    the network only through the instance of that state. *)
Definition well_behaved {A} (m : M A) : Prop :=
  forall s u, after (m s u) = s /\
              Forall (sent_through (axiosInstance s)) (issued (m s u)).

(** An invocation that fails before anything is sent. *)
Definition fails_without_request (i : invocation) : Prop :=
  (exists e, result i = Rejected e) /\ requests i = [].

(** The completion that settles the handler's promise as given: a [return]
    of the value, or a [throw] of the error. *)
Definition abrupt {A} (o : settled value) : completion A :=
  match o with
  | Fulfilled v => Return v
  | Rejected e => Throw e
  end.

(** The cases whose url is a template with a placeholder: the text before
    the placeholder, the argument interpolated, the text after it. *)
Definition path_templates : list (string * (string * string * string)) :=
  [ ("get_token_information", ("/tokens/", "tokenAddress", ""));
    ("get_token_information_by_pool", ("/tokens/by-pool/", "poolAddress", ""));
    ("get_token_holders_top", ("/tokens/", "tokenAddress", "/holders/top"));
    ("get_token_ath", ("/tokens/", "tokenAddress", "/ath"));
    ("get_tokens_created_by_wallet", ("/deployer/", "wallet", ""));
    ("get_trending_tokens_timeframe", ("/tokens/trending/", "timeframe", "")) ].

(** The cases that issue one request and answer with the statements they
    all share, each with the url and the [params] of its request. *)
Definition single_request_cases (args : gmap string value)
  : list (string * (string * list (string * value))) :=
  [ ("get_token_information", ("/tokens/" +:+ ToString (prop args "tokenAddress"), []));
    ("get_token_information_by_pool", ("/tokens/by-pool/" +:+ ToString (prop args "poolAddress"), []));
    ("get_token_holders_top", ("/tokens/" +:+ ToString (prop args "tokenAddress") +:+ "/holders/top", []));
    ("get_token_ath", ("/tokens/" +:+ ToString (prop args "tokenAddress") +:+ "/ath", []));
    ("get_tokens_created_by_wallet", ("/deployer/" +:+ ToString (prop args "wallet"), []));
    ("search_tokens", ("/search", (fun k => (k, prop args k)) <$> search_tokens_params));
    ("get_trending_tokens", ("/tokens/trending", []));
    ("get_trending_tokens_timeframe", ("/tokens/trending/" +:+ ToString (prop args "timeframe"), []));
    ("get_tokens_volume", ("/tokens/volume", []));
    ("get_tokens_multi_all", ("/tokens/multi/all", [])) ].

(** The state an invocation history leaves behind: each entry is run in the
    state left by the one before. *)
Definition replay (Mm : ErrorCode -> string -> string) (s : state)
    (history : list (upstream * string * option (gmap string value))) : state :=
  foldl (fun st h => final (invoke Mm st h.1.1 h.1.2 h.2)) s history.

(** An upstream that answers every request with status 200 and body [d]. *)
Definition ok (d : value) : upstream :=
  fun _ => Fulfilled {| status := 200; statusText := "OK"; data := d |}.

(** An upstream that fails the request to [path] with an axios error and
    answers any other request with status 200 and body [d]. *)
Definition down_at (path : string) (m : string) (d : value) : upstream :=
  fun r => if decide (url r = path) then Rejected (AxiosError m)
           else Fulfilled {| status := 200; statusText := "OK"; data := d |}.

(** A loaded module, for running the handler on concrete inputs. *)
Definition example_env : gmap string string :=
  {[ "SOLANA_TRACKER_API_KEY" := "secret" ]}.

Definition example_state : state :=
  {| axiosInstance := axios_create "secret" |}.

(** [{ "symbol": "ABC" }] *)
Definition symbol_ABC : value := VObj {[ "symbol" := VStr "ABC" ]}.

(** [invoke("search_tokens", {})] against an upstream that answers 200. *)
Definition search_without_query : invocation :=
  invoke sdk_message example_state (ok (VStr "hit")) "search_tokens" (Some ∅).

(** The names each clause destructures from [request.params.arguments]; the
    clauses that are not listed destructure nothing. *)
Definition destructured : list (string * list string) :=
  [ ("get_token_information", ["tokenAddress"]);
    ("get_token_information_by_pool", ["poolAddress"]);
    ("get_token_holders_top", ["tokenAddress"]);
    ("get_token_ath", ["tokenAddress"]);
    ("get_tokens_created_by_wallet", ["wallet"]);
    ("search_tokens", search_tokens_params);
    ("get_latest_tokens", ["page"]);
    ("get_trending_tokens_timeframe", ["timeframe"]) ].

(** The argument names the clause of a tool name reads. *)
Definition reads (name : string) : list string :=
  default [] (snd <$> find (fun e => bool_decide (e.1 = name)) destructured).

(** The complete clauses that never look at the arguments, each with the
    url it calls. *)
Definition argument_free : list (string * string) :=
  [ ("get_trending_tokens", "/tokens/trending");
    ("get_tokens_volume", "/tokens/volume");
    ("get_tokens_multi_all", "/tokens/multi/all") ].

(** The types the input schemas give their properties. *)
Definition schema_types : list string := ["string"; "integer"; "number"; "boolean"].

(** A descriptor whose schema hangs together: what it requires it declares,
    it declares no name twice, and every declared property has one of the
    schema types. *)
Definition well_formed (t : ToolDescriptor) : Prop :=
  required_of t ⊆ declared_of t /\
  NoDup (declared_of t) /\
  Forall (fun p => p_type p.2 ∈ schema_types)
         (default [] (properties (inputSchema t))).

(** The urls of the upstream API the handler knows: [/search], and what
    lies under [/tokens/] and [/deployer/]. *)
Definition endpoint (path : string) : Prop :=
  path = "/search" \/
  exists rest, path = "/tokens/" +:+ rest \/ path = "/deployer/" +:+ rest.

(** ** Properties of the statement combinators *)

Section Combinators.

Context {A B : Type}.

Lemma well_behaved_pure (a : A) : well_behaved (pure a).
Proof. intros s u. split; [reflexivity | constructor]. Qed.

Lemma well_behaved_return (v : value) : well_behaved (@return_ A v).
Proof. intros s u. split; [reflexivity | constructor]. Qed.

Lemma well_behaved_throw (e : exn) : well_behaved (@throw A e).
Proof. intros s u. split; [reflexivity | constructor]. Qed.

Lemma well_behaved_seq (m : M A) (k : A -> M B) :
  well_behaved m -> (forall a, well_behaved (k a)) -> well_behaved (seq m k).
Proof.
  intros Hm Hk s u. unfold seq.
  destruct (Hm s u) as [Hs Hr].
  destruct (m s u) as [[a | v | e] reqs s']; simpl in *; subst s'; auto.
  destruct (Hk a s u) as [Hs' Hr']. split; [assumption |].
  apply Forall_app; auto.
Qed.

Lemma well_behaved_try_catch (body : M A) (handler : exn -> M A) :
  well_behaved body -> (forall e, well_behaved (handler e)) ->
  well_behaved (try_catch body handler).
Proof.
  intros Hb Hh s u. unfold try_catch.
  destruct (Hb s u) as [Hs Hr].
  destruct (body s u) as [[a | v | e] reqs s']; simpl in *; subst s'; auto.
  destruct (Hh e s u) as [Hs' Hr']. split; [assumption |].
  apply Forall_app; auto.
Qed.

Lemma well_behaved_try_finally (body : M A) (fin : M unit) :
  well_behaved body -> well_behaved fin -> well_behaved (try_finally body fin).
Proof.
  intros Hb Hf s u. unfold try_finally. simpl.
  destruct (Hb s u) as [Hs Hr]. rewrite Hs.
  destruct (Hf s u) as [Hs' Hr']. split; [assumption |].
  apply Forall_app; auto.
Qed.

End Combinators.

Lemma well_behaved_get (path : string) (ps : list (string * value)) :
  relative path = true -> well_behaved (get path ps).
Proof.
  intros Hrel s u. unfold get, GET_request.
  destruct (u _); simpl; (split; [reflexivity |]);
    repeat constructor; assumption.
Qed.

Lemma well_behaved_destructure arguments : well_behaved (destructure arguments).
Proof.
  destruct arguments; [apply well_behaved_pure | apply well_behaved_throw].
Qed.

(** ** Properties of the handler *)

Ltac unfold_case :=
  unfold case_get_token_information, case_get_token_information_by_pool,
    case_get_token_holders_top, case_get_token_ath,
    case_get_tokens_created_by_wallet, case_search_tokens,
    case_get_latest_tokens, case_get_trending_tokens,
    case_get_trending_tokens_timeframe, case_get_tokens_volume,
    case_get_tokens_multi_all, case_get_tokens_multi_graduated.

(** Finds a literal entry in a literal list. *)
Ltac in_list :=
  repeat first [apply list_elem_of_here | apply list_elem_of_further].

(** Enters the clause of a literal name. *)
Ltac enter_clause :=
  unfold cases; cbn [switch fall_through fmap list_fmap snd];
  repeat (rewrite decide_False by done); rewrite decide_True by done.

Section Properties.

Variable Mm : ErrorCode -> string -> string.

Lemma well_behaved_respond response : well_behaved (respond response).
Proof.
  unfold respond.
  destruct (negb _); [apply well_behaved_throw | apply well_behaved_return].
Qed.

Lemma well_behaved_rethrow error : well_behaved (rethrow Mm error).
Proof. unfold rethrow. destruct (isAxiosError error); apply well_behaved_throw. Qed.

(** A request on a relative url, answered through [respond] and guarded by
    the given [catch] clause. *)
Lemma well_behaved_guarded path ps (handler : exn -> M unit) :
  relative path = true -> (forall e, well_behaved (handler e)) ->
  well_behaved (try_catch (response ← get path ps; respond response) handler).
Proof.
  intros Hrel Hh. apply well_behaved_try_catch; [| assumption].
  apply well_behaved_seq; [apply well_behaved_get; assumption |].
  apply well_behaved_respond.
Qed.

Lemma well_behaved_cases arguments :
  Forall (fun clause => well_behaved clause.2) (cases Mm arguments).
Proof.
  unfold cases.
  repeat apply Forall_cons_2; try apply Forall_nil_2; simpl.
  all: try (apply well_behaved_seq; [apply well_behaved_destructure | intros args]).
  all: try (apply well_behaved_guarded; [reflexivity | apply well_behaved_rethrow]).
  - apply well_behaved_guarded; [reflexivity |].
    intros e. destruct (isAxiosError e);
      [apply well_behaved_pure | apply well_behaved_throw].
  - apply well_behaved_try_finally; [| apply well_behaved_pure].
    apply well_behaved_seq; [apply well_behaved_get; reflexivity |].
    intros response.
    destruct (negb _); [apply well_behaved_throw | apply well_behaved_pure].
Qed.

Lemma well_behaved_fall_through (bodies : list (M unit)) :
  Forall well_behaved bodies -> well_behaved (fall_through bodies).
Proof.
  induction 1 as [| body rest Hbody _ IH]; simpl.
  - apply well_behaved_pure.
  - apply well_behaved_seq; [assumption | intros _; exact IH].
Qed.

Lemma well_behaved_switch discriminant (clauses : list (string * M unit)) :
  Forall (fun clause => well_behaved clause.2) clauses ->
  well_behaved (switch discriminant clauses).
Proof.
  induction 1 as [| [label body] rest Hbody Hrest IH]; simpl.
  - apply well_behaved_pure.
  - destruct (decide (discriminant = label)); [| exact IH].
    apply well_behaved_seq; [exact Hbody | intros _].
    apply well_behaved_fall_through. apply Forall_fmap. exact Hrest.
Qed.

Lemma well_behaved_CallTool name arguments :
  well_behaved (CallTool Mm name arguments).
Proof.
  apply well_behaved_try_finally; [| apply well_behaved_pure].
  apply well_behaved_switch, well_behaved_cases.
Qed.

Lemma final_invoke s u name arguments : final (invoke Mm s u name arguments) = s.
Proof. apply (well_behaved_CallTool name arguments s u). Qed.

Lemma replay_state s history : replay Mm s history = s.
Proof.
  unfold replay. induction history as [| h history IH]; cbn [foldl]; [reflexivity |].
  rewrite final_invoke. exact IH.
Qed.

Lemma load_Fulfilled env s :
  load env = Fulfilled s ->
  exists API_KEY, env !! "SOLANA_TRACKER_API_KEY" = Some API_KEY /\
                  s = {| axiosInstance := axios_create API_KEY |}.
Proof.
  unfold load. destruct (env !! _) as [[| c k] |]; [discriminate | | discriminate].
  intros [= <-]. eexists. split; reflexivity.
Qed.

(** C7: every request an invocation issues, whatever the tool name, the
    arguments and the upstream, is a GET sent with the fixed base URL
    [https://data.solanatracker.io] (the url it is called on is relative, so
    the base URL applies) and with the [x-api-key] header holding the key the
    module was loaded with. *)
Theorem requests_are_GET_to_base_url_with_key env s u name arguments :
  load env = Fulfilled s ->
  Forall (fun r => method r = GET /\
                   req_baseURL r = "https://data.solanatracker.io" /\
                   relative (url r) = true /\
                   req_headers r !! "x-api-key" = env !! "SOLANA_TRACKER_API_KEY")
         (requests (invoke Mm s u name arguments)).
Proof.
  intros Hload. apply load_Fulfilled in Hload as (API_KEY & Henv & ->).
  destruct (well_behaved_CallTool name arguments
              {| axiosInstance := axios_create API_KEY |} u) as [_ Hreqs].
  eapply Forall_impl; [exact Hreqs |].
  intros r (Hm & Hb & Hh & Hrel).
  rewrite Hh, Henv. split; [assumption |]. split; [assumption |].
  split; [assumption |]. apply lookup_singleton_eq.
Qed.

(** C9: the handler is a function of the tool name, the arguments, the
    upstream's answers and the module state, and it leaves the module state
    (the axios instance: base URL and API-key header) as it found it.  So
    after any history of invocations the state is the initial one, and an
    invocation gives the result and issues the requests it would have given
    and issued at the start; in particular two invocations in a row agree. *)
Theorem invocations_are_stateless s history u name arguments :
  replay Mm s history = s /\
  final (invoke Mm s u name arguments) = s /\
  invoke Mm (replay Mm s history) u name arguments
    = invoke Mm s u name arguments /\
  invoke Mm (final (invoke Mm s u name arguments)) u name arguments
    = invoke Mm s u name arguments.
Proof.
  rewrite replay_state, !final_invoke. repeat split; reflexivity.
Qed.

Lemma cases_labels arguments : (cases Mm arguments).*1 = case_labels.
Proof. reflexivity. Qed.

Lemma switch_no_label discriminant (clauses : list (string * M unit)) :
  discriminant ∉ clauses.*1 -> switch discriminant clauses = pure ().
Proof.
  induction clauses as [| [label body] rest IH]; simpl; [reflexivity |].
  intros Hnot. apply not_elem_of_cons in Hnot as [Hne Hrest].
  rewrite decide_False by assumption. apply IH, Hrest.
Qed.

(** A name without a clause: the [switch] does nothing, the handler falls
    off its end, and nothing is sent. *)
Lemma invoke_no_label s u name arguments :
  name ∉ case_labels ->
  invoke Mm s u name arguments
    = {| result := Fulfilled VUndefined; requests := []; final := s |}.
Proof.
  intros Hnot. unfold invoke, CallTool.
  rewrite switch_no_label by (rewrite cases_labels; exact Hnot).
  reflexivity.
Qed.

Lemma invoke_run s u name arguments c reqs s' :
  switch name (cases Mm arguments) s u = Ran c reqs s' ->
  invoke Mm s u name arguments
    = {| result := settle c; requests := reqs; final := s' |}.
Proof.
  intros Hrun. unfold invoke, CallTool, try_finally. rewrite Hrun. simpl.
  rewrite app_nil_r. reflexivity.
Qed.

Lemma invoke_run_abrupt s u name arguments o reqs s' :
  switch name (cases Mm arguments) s u = Ran (abrupt o) reqs s' ->
  invoke Mm s u name arguments
    = {| result := o; requests := reqs; final := s' |}.
Proof.
  intros Hrun. rewrite (invoke_run _ _ _ _ _ _ _ Hrun). destruct o; reflexivity.
Qed.

(** A statement that returns or throws ends the sequence it is part of. *)
Lemma seq_abrupt {A B} (m : M A) (k : A -> M B) s u o reqs s' :
  m s u = Ran (abrupt o) reqs s' -> seq m k s u = Ran (abrupt o) reqs s'.
Proof. intros Hrun. unfold seq. rewrite Hrun. destruct o; reflexivity. Qed.

Lemma seq_Normal {A B} (m : M A) (k : A -> M B) s u a reqs s' :
  m s u = Ran (Normal a) reqs s' ->
  seq m k s u
    = Ran (completed (k a s' u)) (reqs ++ issued (k a s' u)) (after (k a s' u)).
Proof. intros Hrun. unfold seq. rewrite Hrun. reflexivity. Qed.

Lemma destructured_run {A} (k : gmap string value -> M A) args s u r :
  k args s u = r -> (a ← destructure (Some args); k a) s u = r.
Proof. intros <-. unfold mbind, M_bind, seq. simpl. destruct (k args s u); reflexivity. Qed.

(** One request answered by the statements the complete cases share. *)
Lemma guarded_run path ps s u :
  try_catch (response ← get path ps; respond response) (rethrow Mm) s u
    = Ran (abrupt (answer Mm (u (GET_request s path ps))))
          [GET_request s path ps] s.
Proof.
  unfold try_catch, mbind, M_bind, seq, get, answer.
  destruct (u _) as [[st txt d] | [m | c m | m]]; cbn -[GET_request].
  - unfold respond. cbn -[GET_request]. destruct (st =? 200)%Z; reflexivity.
  - reflexivity.
  - reflexivity.
  - reflexivity.
Qed.

(** The cases with one request and the shared statements. *)
Lemma invoke_single_request s u name args path ps :
  (name, (path, ps)) ∈ single_request_cases args ->
  invoke Mm s u name (Some args)
    = {| result := answer Mm (u (GET_request s path ps));
         requests := [GET_request s path ps];
         final := s |}.
Proof.
  unfold single_request_cases. intros Hin.
  repeat (apply elem_of_cons in Hin as [[= -> -> ->] | Hin]);
    [.. | apply elem_of_nil in Hin; contradiction].
  all: apply invoke_run_abrupt.
  all: enter_clause; apply seq_abrupt; unfold_case.
  all: first [apply guarded_run | apply destructured_run, guarded_run].
Qed.

(** [get_latest_tokens]: an axios error on the first request is dropped and
    control runs into the clause of [get_trending_tokens]. *)
Lemma invoke_get_latest_tokens s u args :
  invoke Mm s u "get_latest_tokens" (Some args)
    = match u (GET_request s "/tokens/latest" [("page", prop args "page")]) with
      | Rejected (AxiosError _) =>
          {| result := answer Mm (u (GET_request s "/tokens/trending" []));
             requests := [GET_request s "/tokens/latest" [("page", prop args "page")];
                          GET_request s "/tokens/trending" []];
             final := s |}
      | o =>
          {| result := answer Mm o;
             requests := [GET_request s "/tokens/latest" [("page", prop args "page")]];
             final := s |}
      end.
Proof.
  destruct (u (GET_request s "/tokens/latest" _)) as [[st txt d] | e] eqn:Hu.
  2: destruct e as [m | c m | m].
  all: apply invoke_run_abrupt; enter_clause.
  2: { (* the axios error: the clause completes normally *)
    erewrite seq_Normal with (a := ()) (reqs := [_]) (s' := s).
    - rewrite (seq_abrupt _ _ _ _ _ _ _ (guarded_run "/tokens/trending" [] s u)).
      reflexivity.
    - unfold_case. apply destructured_run.
      unfold try_catch, mbind, M_bind, seq, get. rewrite Hu. reflexivity. }
  all: apply seq_abrupt; unfold_case; apply destructured_run.
  all: unfold try_catch, mbind, M_bind, seq, get, answer; rewrite Hu;
    cbn -[GET_request].
  - unfold respond. cbn -[GET_request]. destruct (st =? 200)%Z; reflexivity.
  - reflexivity.
  - reflexivity.
Qed.

(** The last clause: no [return] after a 200, no [catch] around the
    request. *)
Lemma invoke_get_tokens_multi_graduated s u arguments :
  invoke Mm s u "get_tokens_multi_graduated" arguments
    = {| result :=
           match u (GET_request s "/tokens/multi/graduated" []) with
           | Fulfilled response =>
               if (status response =? 200)%Z then Fulfilled VUndefined
               else Rejected (McpError InternalError cut_off_literal)
           | Rejected e => Rejected e
           end;
         requests := [GET_request s "/tokens/multi/graduated" []];
         final := s |}.
Proof.
  unfold invoke, CallTool. enter_clause. unfold_case.
  unfold try_finally, mbind, M_bind, seq, get. cbn -[GET_request].
  destruct (u _) as [[st txt d] | e]; cbn -[GET_request];
    [destruct (st =? 200)%Z |]; reflexivity.
Qed.

(** The cases that destructure [request.params.arguments] throw before any
    request when the call carries no arguments. *)
Lemma invoke_without_arguments s u name :
  name ∈ [ "get_token_information"; "get_token_information_by_pool";
           "get_token_holders_top"; "get_token_ath";
           "get_tokens_created_by_wallet"; "search_tokens";
           "get_latest_tokens"; "get_trending_tokens_timeframe" ] ->
  exists m, invoke Mm s u name None
              = {| result := Rejected (OtherError m); requests := []; final := s |}.
Proof.
  intros Hin. eexists.
  repeat (apply elem_of_cons in Hin as [-> | Hin]);
    [.. | apply elem_of_nil in Hin; contradiction].
  all: apply (invoke_run_abrupt _ _ _ _ (Rejected _)); enter_clause.
  all: apply (seq_abrupt _ _ _ _ (Rejected _)); reflexivity.
Qed.

(** *** The shared answer *)

Lemma answer_200 txt d :
  answer Mm (Fulfilled {| status := 200; statusText := txt; data := d |})
    = Fulfilled (content_json d).
Proof. reflexivity. Qed.

Lemma answer_Rejected o e :
  answer Mm o = Rejected e -> exists m, e = McpError InternalError m.
Proof.
  unfold answer. destruct o as [[st txt d] | [m | c m | m]]; simpl.
  - destruct (st =? 200)%Z; [discriminate |]. intros [= <-]. eauto.
  - intros [= <-]. eauto.
  - intros [= <-]. eauto.
  - intros [= <-]. eauto.
Qed.

(** The body is handed on as it came: it is the [json] field of the one
    element of [content], next to the [type] field and nothing else. *)
Lemma content_json_fields d :
  exists item, content_json d = VObj {[ "content" := VArr [VObj item] ]} /\
               item !! "json" = Some d /\
               item !! "type" = Some (VStr "json") /\
               dom item = {[ "type"; "json" ]}.
Proof.
  eexists. split; [reflexivity |]. split; [| split].
  - rewrite lookup_insert_ne by done. apply lookup_singleton_eq.
  - apply lookup_insert_eq.
  - rewrite dom_insert_L, dom_singleton_L. reflexivity.
Qed.

(** *** Query parameters *)

Lemma absent_not_serialized (args : gmap string value) (ks : list string) k :
  args !! k = None ->
  k ∉ (serialized ((fun k => (k, prop args k)) <$> ks)).*1.
Proof.
  intros Habsent Hin.
  apply list_elem_of_fmap in Hin as ([k' v] & -> & Hin).
  apply list_elem_of_filter in Hin as [Hnn Hin].
  apply list_elem_of_fmap in Hin as (k'' & [= -> ->] & _).
  simpl in Hnn, Habsent. unfold prop in Hnn. rewrite Habsent in Hnn. discriminate.
Qed.

Lemma present_serialized (args : gmap string value) (ks : list string) k v :
  k ∈ ks -> args !! k = Some v -> nullish v = false ->
  (k, v) ∈ serialized ((fun k => (k, prop args k)) <$> ks).
Proof.
  intros Hk Hv Hnn. apply list_elem_of_filter. split; [exact Hnn |].
  apply list_elem_of_fmap. exists k. split; [| exact Hk].
  unfold prop. rewrite Hv. reflexivity.
Qed.

(** The query parameters of the two dispatched tools that have any: what
    the arguments lack is not serialized, what they hold (other than [null])
    is. *)
Lemma search_tokens_query s u args :
  exists r, requests (invoke Mm s u "search_tokens" (Some args)) = [r] /\
            url r = "/search" /\
            (forall k, args !! k = None -> k ∉ (serialized (params r)).*1) /\
            (forall k v, k ∈ search_tokens_params -> args !! k = Some v ->
                         nullish v = false -> (k, v) ∈ serialized (params r)).
Proof.
  eexists. rewrite (invoke_single_request s u "search_tokens" args "/search"
                      ((fun k => (k, prop args k)) <$> search_tokens_params))
    by (unfold single_request_cases; in_list).
  split; [reflexivity |]. split; [reflexivity |]. split.
  - intros k. apply absent_not_serialized.
  - intros k v. apply present_serialized.
Qed.

Lemma append_empty_r (x : string) : x +:+ "" = x.
Proof.
  induction x as [| c x IH]; [reflexivity |].
  change (String c (x +:+ "") = String c x). f_equal. exact IH.
Qed.

(** *** The catalog and the clauses *)

Lemma NoDup_catalog_names : NoDup catalog_names.
Proof. compute_done. Qed.

Lemma NoDup_case_labels : NoDup case_labels.
Proof. compute_done. Qed.

Lemma case_labels_in_catalog : case_labels ⊆ catalog_names.
Proof. compute_done. Qed.

Lemma invoke_outside_catalog s u name arguments :
  name ∉ catalog_names ->
  invoke Mm s u name arguments
    = {| result := Fulfilled VUndefined; requests := []; final := s |}.
Proof.
  intros Hnot. apply invoke_no_label.
  intros Hin. apply Hnot, case_labels_in_catalog, Hin.
Qed.

(** *** The dispatch contract *)

(** C1 (the code departs from it): the catalog and the [switch] do not name
    the same tools.  The catalog lists 33 names and the [switch] has 12
    clauses; every label is a catalog name, but the 21 catalog names from
    [get_token_price] on have no clause, and calling one of them sends
    nothing and settles with [undefined]. *)
Theorem catalog_names_without_clause s u arguments :
  length catalog_names = 33 /\ length case_labels = 12 /\
  case_labels ⊆ catalog_names /\
  list_difference catalog_names case_labels
    = [ "get_token_price"; "get_token_price_history";
        "get_token_price_history_timestamp"; "get_tokens_price_multi";
        "get_wallet_tokens"; "get_wallet_tokens_basic";
        "get_wallet_tokens_page"; "get_wallet_trades"; "get_trades_token";
        "get_trades_token_pool"; "get_trades_token_pool_owner";
        "get_trades_token_by_wallet"; "get_chart_token";
        "get_chart_token_pool"; "get_pnl_wallet"; "get_first_buyers";
        "get_pnl_wallet_token"; "get_top_traders_all";
        "get_top_traders_token"; "get_stats_token_pool"; "get_stats_token" ] /\
  invoke Mm s u "get_token_price" arguments
    = {| result := Fulfilled VUndefined; requests := []; final := s |}.
Proof.
  split; [reflexivity |]. split; [reflexivity |].
  split; [exact case_labels_in_catalog |]. split; [compute_done |].
  apply invoke_no_label. compute_done.
Qed.

(** C2 (the code departs from it): the [switch] has no [default] clause, so
    a call with a name outside the catalog sends nothing, as specified, but it
    is not rejected: the handler falls off its end and its promise is
    fulfilled with [undefined]. *)
Theorem unknown_tool_settles_with_undefined s u arguments :
  ("nonexistent_tool" ∉ catalog_names) /\
  invoke Mm s u "nonexistent_tool" arguments
    = {| result := Fulfilled VUndefined; requests := []; final := s |}.
Proof.
  split; [compute_done |]. apply invoke_outside_catalog. compute_done.
Qed.

(** C3 (amended): the handler never checks that a required parameter is
    there.  For every catalog tool that has a clause and marks a parameter
    as required, a call whose arguments object lacks that parameter still
    issues exactly one GET: on the url with the segment [undefined] where
    the parameter is a path parameter, and on [/search] with the parameter
    not serialized for [search_tokens].  The call then settles as the shared
    statements settle the upstream's answer. *)
Theorem missing_required_parameter_is_not_checked s u t k (args : gmap string value) :
  t ∈ ListTools -> name t ∈ case_labels -> k ∈ required_of t ->
  args !! k = None ->
  exists r,
    requests (invoke Mm s u (name t) (Some args)) = [r] /\
    result (invoke Mm s u (name t) (Some args)) = answer Mm (u r) /\
    method r = GET /\
    (k ∉ (serialized (params r)).*1) /\
    ((name t = "search_tokens" /\ url r = "/search") \/
     exists pre suf, (name t, (pre, k, suf)) ∈ path_templates /\
                     url r = pre +:+ "undefined" +:+ suf).
Proof.
  intros Ht Hlabel Hk Habsent.
  unfold ListTools, tools in Ht.
  repeat (apply elem_of_cons in Ht as [-> | Ht]);
    [.. | apply elem_of_nil in Ht; contradiction].
  all: try (exfalso; revert Hlabel; compute_done).
  all: cbn in Hk; clear Hlabel.
  all: repeat (apply elem_of_cons in Hk as [-> | Hk]);
    try (apply elem_of_nil in Hk; contradiction).
  all: cbn [name].
  all: erewrite invoke_single_request by (unfold single_request_cases; in_list).
  all: eexists; split; [reflexivity |]; split; [reflexivity |];
    split; [reflexivity |]; cbn [params url GET_request]; split.
  all: try (apply absent_not_serialized; assumption).
  all: try apply not_elem_of_nil.
  all: try (left; split; reflexivity).
  all: right; eexists _, _; (split; [unfold path_templates; in_list |]).
  all: unfold prop; rewrite Habsent; reflexivity.
Qed.

(** C4 (the code departs from it): the clause of
    [get_tokens_multi_graduated] has no [return].  When the upstream
    answers 200 with body [d], the call issues its one request and then
    settles with [undefined]: the body is lost. *)
Theorem last_clause_returns_nothing_on_200 s txt d arguments :
  invoke Mm s
      (fun _ => Fulfilled {| status := 200; statusText := txt; data := d |})
      "get_tokens_multi_graduated" arguments
    = {| result := Fulfilled VUndefined;
         requests := [GET_request s "/tokens/multi/graduated" []];
         final := s |}.
Proof. rewrite invoke_get_tokens_multi_graduated. reflexivity. Qed.

(** C5 (the code departs from it): in the clause of [get_latest_tokens] the
    branch of the [catch] clause for axios errors is empty.  When the
    request to [/tokens/latest] fails in transport, the error is dropped,
    control runs into the clause of [get_trending_tokens], a second request
    goes to [/tokens/trending], and its body is returned as the result. *)
Theorem get_latest_tokens_drops_axios_error s m d args :
  invoke Mm s (down_at "/tokens/latest" m d) "get_latest_tokens" (Some args)
    = {| result := Fulfilled (content_json d);
         requests := [GET_request s "/tokens/latest" [("page", prop args "page")];
                      GET_request s "/tokens/trending" []];
         final := s |}.
Proof. rewrite invoke_get_latest_tokens. reflexivity. Qed.

(** C6 (the code departs from it): [get_trades_token] is in the catalog, with
    [cursor], [showMeta], [parseJupiter] and [hideArb] declared, but the
    [switch] has no clause for it.  The call of the scenario issues no
    request at all and settles with [undefined]. *)
Theorem get_trades_token_issues_no_request s u :
  ("get_trades_token" ∈ catalog_names) /\
  invoke Mm s u "get_trades_token"
      (Some (<[ "tokenAddress" := VStr "ABC123" ]>
               (<[ "cursor" := VStr "xyz" ]> {[ "hideArb" := VStr "true" ]})))
    = {| result := Fulfilled VUndefined; requests := []; final := s |}.
Proof. split; [compute_done |]. apply invoke_no_label. compute_done. Qed.

(** C8: for each of the six clauses whose url is a template with a
    placeholder, a call with an arguments object issues one request whose
    url is the text before the placeholder, the argument rendered as a
    template literal renders it, and the text after.  A string argument
    goes in as it is, whatever its characters; an absent argument goes in
    as [undefined]. *)
Theorem path_is_raw_interpolation s u name pre k suf (args : gmap string value) :
  (name, (pre, k, suf)) ∈ path_templates ->
  exists r,
    requests (invoke Mm s u name (Some args)) = [r] /\
    url r = pre +:+ ToString (prop args k) +:+ suf /\
    (forall v, args !! k = Some (VStr v) -> url r = pre +:+ v +:+ suf) /\
    (args !! k = None -> url r = pre +:+ "undefined" +:+ suf).
Proof.
  unfold path_templates. intros Hin.
  repeat (apply elem_of_cons in Hin as [[= -> -> -> ->] | Hin]);
    [.. | apply elem_of_nil in Hin; contradiction].
  all: erewrite invoke_single_request by (unfold single_request_cases; in_list).
  all: eexists; split; [reflexivity |]; cbn [url GET_request].
  all: rewrite ?append_empty_r; split; [reflexivity |]; split.
  all: try (intros v Hv; unfold prop; rewrite Hv, ?append_empty_r; reflexivity).
  all: intros Hv; unfold prop; rewrite Hv; reflexivity.
Qed.

(** C10 (the code departs from it): the clause of
    [get_tokens_multi_graduated] has no [catch].  An error of the request,
    an axios error included, leaves the handler as it is, not as an
    [McpError]. *)
Theorem last_clause_lets_errors_escape s e arguments :
  invoke Mm s (fun _ => Rejected e) "get_tokens_multi_graduated" arguments
    = {| result := Rejected e;
         requests := [GET_request s "/tokens/multi/graduated" []];
         final := s |}.
Proof. rewrite invoke_get_tokens_multi_graduated. reflexivity. Qed.

(** What holds of the eleven complete clauses: called with an arguments
    object, whatever they throw is an [McpError] with
    [ErrorCode.InternalError]. *)
Lemma complete_clauses_wrap_errors s u name args e :
  name ∈ case_labels -> name <> "get_tokens_multi_graduated" ->
  result (invoke Mm s u name (Some args)) = Rejected e ->
  exists m, e = McpError InternalError m.
Proof.
  intros Hin Hne.
  repeat (apply elem_of_cons in Hin as [-> | Hin]);
    [.. | apply elem_of_nil in Hin; contradiction].
  12: contradiction Hne; reflexivity.
  7: { rewrite invoke_get_latest_tokens.
       destruct (u _) as [r | [m | c m | m]]; cbn [result];
         apply answer_Rejected. }
  all: erewrite invoke_single_request by (unfold single_request_cases; in_list).
  all: cbn [result]; apply answer_Rejected.
Qed.

(** What holds of the same clauses when the upstream answers every request
    with status 200: the call settles with the body, wrapped. *)
Lemma complete_clauses_wrap_body s txt d name args :
  name ∈ case_labels -> name <> "get_tokens_multi_graduated" ->
  result (invoke Mm s
            (fun _ => Fulfilled {| status := 200; statusText := txt; data := d |})
            name (Some args))
    = Fulfilled (content_json d).
Proof.
  intros Hin Hne.
  repeat (apply elem_of_cons in Hin as [-> | Hin]);
    [.. | apply elem_of_nil in Hin; contradiction].
  12: contradiction Hne; reflexivity.
  7: { rewrite invoke_get_latest_tokens. reflexivity. }
  all: erewrite invoke_single_request by (unfold single_request_cases; in_list).
  all: reflexivity.
Qed.

End Properties.

(** ** More of the handler: arguments, requests, results and errors *)

Section Coverage.

Variable Mm : ErrorCode -> string -> string.

Lemma invoke_argument_free_request s u name path arguments :
  (name, path) ∈ argument_free ->
  invoke Mm s u name arguments
    = {| result := answer Mm (u (GET_request s path []));
         requests := [GET_request s path []];
         final := s |}.
Proof.
  unfold argument_free. intros Hin.
  repeat (apply elem_of_cons in Hin as [[= -> ->] | Hin]);
    [.. | apply elem_of_nil in Hin; contradiction].
  all: apply invoke_run_abrupt; enter_clause; apply seq_abrupt; unfold_case.
  all: apply guarded_run.
Qed.

Lemma answer_Fulfilled o v :
  answer Mm o = Fulfilled v ->
  exists response, o = Fulfilled response /\ status response = 200%Z /\
                   v = content_json (data response).
Proof.
  unfold answer. destruct o as [[st txt d] | [m | c m | m]]; simpl;
    try discriminate.
  destruct (st =? 200)%Z eqn:Hst; [| discriminate].
  intros [= <-]. apply Z.eqb_eq in Hst. eauto.
Qed.

(** The five ways an invocation goes: no clause; a clause that destructures
    arguments that are not there; a clause with one request and the shared
    statements; [get_latest_tokens]; the cut-off last clause. *)
Lemma invoke_shape s u name arguments :
  ((name ∉ case_labels) /\
   invoke Mm s u name arguments
     = {| result := Fulfilled VUndefined; requests := []; final := s |}) \/
  (arguments = None /\ (name ∈ destructured.*1) /\
   exists m, invoke Mm s u name arguments
               = {| result := Rejected (OtherError m); requests := [];
                    final := s |}) \/
  (name <> "get_latest_tokens" /\ name <> "get_tokens_multi_graduated" /\
   exists path ps,
     (name, (path, ps)) ∈ single_request_cases (default ∅ arguments) /\
     invoke Mm s u name arguments
       = {| result := answer Mm (u (GET_request s path ps));
            requests := [GET_request s path ps];
            final := s |}) \/
  (name = "get_latest_tokens" /\ exists args, arguments = Some args) \/
  name = "get_tokens_multi_graduated".
Proof.
  destruct (decide (name ∈ case_labels)) as [Hin | Hnot];
    [| left; split; [exact Hnot | apply invoke_no_label, Hnot]].
  right.
  repeat (apply elem_of_cons in Hin as [-> | Hin]);
    [.. | apply elem_of_nil in Hin; contradiction].
  12: do 3 right; reflexivity.
  all: destruct arguments as [args |].
  all: try (left; split; [reflexivity |];
            split; [unfold destructured; cbn; solve [in_list] |];
            apply invoke_without_arguments; solve [in_list]).
  all: try (do 2 right; left; split; [reflexivity |]; eauto).
  all: right; left; split; [done |]; split; [done |]; eexists _, _.
  all: first
    [ split; [unfold single_request_cases; in_list |];
      cbn [default]; apply invoke_single_request;
      unfold single_request_cases; in_list
    | split; [unfold single_request_cases; in_list |];
      apply invoke_argument_free_request; unfold argument_free; in_list ].
Qed.

(** X1: the module loads exactly when the environment holds a non-empty
    [SOLANA_TRACKER_API_KEY], and every request a loaded module issues
    carries that key, which is not empty, as its one configured header. *)
Theorem loaded_module_sends_a_nonempty_key env :
  ((exists s, load env = Fulfilled s) <->
   (exists k, env !! "SOLANA_TRACKER_API_KEY" = Some k /\ k <> "")) /\
  forall s u name arguments,
    load env = Fulfilled s ->
    Forall (fun r => exists k, k <> "" /\
                               env !! "SOLANA_TRACKER_API_KEY" = Some k /\
                               req_headers r = {[ "x-api-key" := k ]})
           (requests (invoke Mm s u name arguments)).
Proof.
  unfold load. destruct (env !! "SOLANA_TRACKER_API_KEY") as [[| c k] |] eqn:Henv.
  - split; [| discriminate].
    split; [intros [s [=]] | intros (k & [= <-] & Hk); contradiction].
  - split.
    + split; [intros _; eexists; split; [reflexivity | discriminate] | eauto].
    + intros s u name arguments [= <-].
      destruct (well_behaved_CallTool Mm name arguments
                  {| axiosInstance := axios_create (String c k) |} u) as [_ Hreqs].
      eapply Forall_impl; [exact Hreqs |].
      intros r (_ & _ & Hh & _). exists (String c k).
      split; [discriminate |]. split; [reflexivity | exact Hh].
  - split; [| discriminate].
    split; [intros [s [=]] | intros (k & [=] & _)].
Qed.

(** X2: the catalog is well formed: no two descriptors share a name, and in
    every descriptor the required parameters are among the declared ones,
    no parameter is declared twice, and every declared parameter has one of
    the types string, integer, number, boolean. *)
Theorem catalog_is_well_formed :
  NoDup catalog_names /\ Forall well_formed ListTools.
Proof.
  split; [exact NoDup_catalog_names |].
  unfold ListTools, tools.
  repeat (apply Forall_cons_2; [unfold well_formed; cbn; compute_done |]).
  apply Forall_nil_2.
Qed.

(** X3: for every catalog tool that has a clause, the names the clause
    destructures from the arguments are the properties its descriptor
    declares, in the same order; and every name in the table of
    destructuring clauses is a label of the [switch]. *)
Theorem clauses_read_the_declared_parameters :
  Forall (fun t => name t ∈ case_labels -> reads (name t) = declared_of t)
         ListTools /\
  destructured.*1 ⊆ case_labels.
Proof. split; compute_done. Qed.

Lemma prop_agree (args args' : gmap string value) k :
  args !! k = args' !! k -> prop args k = prop args' k.
Proof. unfold prop. intros ->. reflexivity. Qed.

(** X4: an invocation depends on the arguments object only through the
    names its clause destructures: two objects that agree on those names
    give the same result and the same requests, whatever else they hold. *)
Theorem unread_arguments_are_ignored s u name (args args' : gmap string value) :
  (forall k, k ∈ reads name -> args !! k = args' !! k) ->
  invoke Mm s u name (Some args) = invoke Mm s u name (Some args').
Proof.
  intros Hagree.
  destruct (decide (name ∈ case_labels)) as [Hin | Hnot];
    [| rewrite !invoke_no_label by exact Hnot; reflexivity].
  repeat (apply elem_of_cons in Hin as [-> | Hin]);
    [.. | apply elem_of_nil in Hin; contradiction].
  12: rewrite !invoke_get_tokens_multi_graduated; reflexivity.
  7: { rewrite !invoke_get_latest_tokens.
       rewrite (prop_agree args args' "page") by (apply Hagree; compute_done).
       reflexivity. }
  all: erewrite (invoke_single_request _ _ _ _ args)
    by (unfold single_request_cases; in_list).
  all: erewrite (invoke_single_request _ _ _ _ args')
    by (unfold single_request_cases; in_list).
  all: try reflexivity.
  all: try (rewrite (prop_agree args args' _) by (apply Hagree; compute_done);
            reflexivity).
  (* search_tokens *)
  assert (Heq : (fun k => (k, prop args k)) <$> search_tokens_params
                = (fun k => (k, prop args' k)) <$> search_tokens_params).
  { apply list_fmap_ext. intros i k Hk. f_equal.
    apply prop_agree, Hagree. change (k ∈ search_tokens_params).
    apply list_elem_of_lookup_2 in Hk. exact Hk. }
  rewrite Heq. reflexivity.
Qed.

(** X5: the [params] object of a request holds exactly the parameters the
    catalog declares for the tool, in the declared order, each with the
    value the arguments give it ([undefined] when they give none): this is
    so for the first request of [search_tokens] and [get_latest_tokens],
    and every other request is issued without [params]. *)
Theorem query_parameters_are_the_declared_ones s u tool (args : gmap string value) :
  (forall t, t ∈ ListTools -> name t = tool ->
     tool ∈ ["search_tokens"; "get_latest_tokens"] ->
     exists r rest,
       requests (invoke Mm s u tool (Some args)) = r :: rest /\
       params r = (fun k => (k, prop args k)) <$> declared_of t /\
       Forall (fun r' => params r' = []) rest) /\
  (tool ∉ ["search_tokens"; "get_latest_tokens"] ->
   Forall (fun r => params r = []) (requests (invoke Mm s u tool (Some args)))).
Proof.
  split.
  - intros t Ht <- Hname. unfold ListTools, tools in Ht.
    repeat (apply elem_of_cons in Ht as [-> | Ht]);
      [.. | apply elem_of_nil in Ht; contradiction].
    all: try (exfalso; revert Hname; compute_done).
    all: clear Hname; cbn [name].
    + erewrite invoke_single_request by (unfold single_request_cases; in_list).
      eexists _, _. split; [reflexivity |]. split; [reflexivity | constructor].
    + rewrite invoke_get_latest_tokens.
      destruct (u _) as [r | [m | c m | m]]; eexists _, _;
        (split; [reflexivity |]); (split; [reflexivity |]);
        repeat constructor.
  - intros Hname.
    destruct (invoke_shape s u tool (Some args))
      as [[_ ->] | [([=] & _) | [(_ & _ & path & ps & Hin & ->) | [(-> & _) | ->]]]].
    + constructor.
    + cbn [default] in Hin. unfold single_request_cases in Hin.
      repeat (apply elem_of_cons in Hin as [[= -> -> ->] | Hin]);
        [.. | apply elem_of_nil in Hin; contradiction].
      all: try (repeat constructor).
      exfalso. apply Hname. in_list.
    + exfalso. apply Hname. in_list.
    + rewrite invoke_get_tokens_multi_graduated. repeat constructor.
Qed.

(** X6: a call without an arguments object to a clause that destructures
    the arguments is rejected by the destructuring itself: the error is not
    an [McpError], and no request is issued. *)
Theorem missing_arguments_throw_before_any_request s u name :
  name ∈ destructured.*1 ->
  exists m, invoke Mm s u name None
              = {| result := Rejected (OtherError m); requests := [];
                   final := s |}.
Proof. intros Hin. apply invoke_without_arguments. exact Hin. Qed.

(** X7: a tool name whose clause destructures nothing (or that has no
    clause) is served without a look at the arguments: the invocation is the
    same for any two arguments values, an absent arguments object
    included. *)
Theorem undestructured_arguments_do_not_matter s u name arguments arguments' :
  name ∉ destructured.*1 ->
  invoke Mm s u name arguments = invoke Mm s u name arguments'.
Proof.
  intros Hnot.
  destruct (decide (name ∈ case_labels)) as [Hin | Hno];
    [| rewrite !invoke_no_label by exact Hno; reflexivity].
  repeat (apply elem_of_cons in Hin as [-> | Hin]);
    [.. | apply elem_of_nil in Hin; contradiction].
  all: try (exfalso; apply Hnot; unfold destructured; cbn; solve [in_list]).
  4: rewrite !invoke_get_tokens_multi_graduated; reflexivity.
  all: erewrite !invoke_argument_free_request by (unfold argument_free; in_list).
  all: reflexivity.
Qed.

(** X8: an invocation issues at most two requests, and at most one unless
    the tool is [get_latest_tokens]; a second request is only ever issued
    after the request to [/tokens/latest] failed with an axios error. *)
Theorem at_most_two_requests s u name arguments :
  length (requests (invoke Mm s u name arguments)) <= 2 /\
  (name <> "get_latest_tokens" ->
   length (requests (invoke Mm s u name arguments)) <= 1) /\
  (length (requests (invoke Mm s u name arguments)) = 2 ->
   exists m,
     u (GET_request s "/tokens/latest"
          [("page", prop (default ∅ arguments) "page")])
       = Rejected (AxiosError m)).
Proof.
  destruct (invoke_shape s u name arguments)
    as [[_ ->] | [(-> & _ & m & ->) | [(_ & _ & path & ps & _ & ->)
                                      | [(-> & args & ->) | ->]]]].
  1-3: cbn [requests length]; repeat split; try lia; try discriminate.
  - rewrite invoke_get_latest_tokens. cbn [default].
    destruct (u _) as [r | [m | c m | m]]; cbn [requests length];
      repeat split; try lia; try discriminate; try congruence.
    all: intros _; eauto.
  - rewrite invoke_get_tokens_multi_graduated. cbn [requests length].
    repeat split; try lia; try discriminate.
Qed.

(** X9: when an invocation succeeds, its value is either the wrapped body of
    a response with status 200 to one of the requests it issued, or
    [undefined]; and [undefined] only for a name without a clause and for
    [get_tokens_multi_graduated]. *)
Theorem success_is_a_200_body_or_undefined s u name arguments v :
  result (invoke Mm s u name arguments) = Fulfilled v ->
  (v = VUndefined /\
   (name ∉ case_labels \/ name = "get_tokens_multi_graduated")) \/
  exists r response,
    r ∈ requests (invoke Mm s u name arguments) /\
    u r = Fulfilled response /\ status response = 200%Z /\
    v = content_json (data response).
Proof.
  destruct (invoke_shape s u name arguments)
    as [[Hno ->] | [(-> & _ & m & ->) | [(_ & _ & path & ps & _ & ->)
                                        | [(-> & args & ->) | ->]]]].
  - intros [= <-]. left. split; [reflexivity | left; exact Hno].
  - discriminate.
  - cbn [result requests]. intros Hv.
    apply answer_Fulfilled in Hv as (response & Hu & Hst & ->).
    right. exists (GET_request s path ps), response.
    split; [apply list_elem_of_here |]. auto.
  - rewrite invoke_get_latest_tokens.
    destruct (u (GET_request s "/tokens/latest" _)) as [r | [m | c m | m]] eqn:Hu;
      cbn [result requests]; intros Hv;
      apply answer_Fulfilled in Hv as (response & Hu' & Hst & ->).
    + right. eexists _, response. split; [apply list_elem_of_here |].
      rewrite Hu. auto.
    + right. eexists _, response.
      split; [apply list_elem_of_further, list_elem_of_here |]. auto.
    + discriminate Hu'.
    + discriminate Hu'.
  - rewrite invoke_get_tokens_multi_graduated. cbn [result].
    destruct (u _) as [[st txt d] | e]; cbn [status]; [| discriminate].
    destruct (st =? 200)%Z; [| discriminate].
    intros [= <-]. left. split; [reflexivity | right; reflexivity].
Qed.

(** X10: when an invocation is rejected, the error is an [McpError] with
    [ErrorCode.InternalError], with two exceptions: the error of a
    destructuring of absent arguments (thrown before any request), and an
    error of the request of [get_tokens_multi_graduated], which leaves the
    handler as axios threw it. *)
Theorem rejections_are_classified s u name arguments e :
  result (invoke Mm s u name arguments) = Rejected e ->
  (exists m, e = McpError InternalError m) \/
  (arguments = None /\ (name ∈ destructured.*1) /\
   requests (invoke Mm s u name arguments) = [] /\
   exists m, e = OtherError m) \/
  (name = "get_tokens_multi_graduated" /\
   u (GET_request s "/tokens/multi/graduated" []) = Rejected e).
Proof.
  destruct (invoke_shape s u name arguments)
    as [[Hno ->] | [(-> & Hd & m & ->) | [(_ & _ & path & ps & _ & ->)
                                         | [(-> & args & ->) | ->]]]].
  - discriminate.
  - intros [= <-]. right. left. eauto.
  - cbn [result]. intros He. left. eapply answer_Rejected, He.
  - rewrite invoke_get_latest_tokens.
    destruct (u _) as [r | [m | c m | m]]; cbn [result]; intros He;
      left; eapply answer_Rejected, He.
  - rewrite invoke_get_tokens_multi_graduated. cbn [result].
    destruct (u _) as [[st txt d] | e'] eqn:Hu; cbn [status].
    + destruct (st =? 200)%Z; [discriminate |]. intros [= <-]. left. eauto.
    + intros [= <-]. right. right. split; reflexivity.
Qed.

(** X11: in the eleven complete clauses a response whose status is not 200
    is not reported under the message built for it: the [McpError] thrown
    for the status is caught by the clause's own [catch], so the call is
    rejected with [Unknown error: ] followed by the message of that
    [McpError]. *)
Theorem status_error_is_reported_as_unknown_error s name (args : gmap string value) st txt d :
  name ∈ case_labels -> name <> "get_tokens_multi_graduated" -> st <> 200%Z ->
  result (invoke Mm s
            (fun _ => Fulfilled {| status := st; statusText := txt; data := d |})
            name (Some args))
    = Rejected (McpError InternalError
        ("Unknown error: " +:+
           Mm InternalError
             ("Solana Tracker API returned status code: "
                +:+ pretty st +:+ ": " +:+ txt))).
Proof.
  intros Hin Hne Hst. apply Z.eqb_neq in Hst.
  repeat (apply elem_of_cons in Hin as [-> | Hin]);
    [.. | apply elem_of_nil in Hin; contradiction].
  12: contradiction Hne; reflexivity.
  7: { rewrite invoke_get_latest_tokens. unfold answer. cbn [result status statusText].
       rewrite Hst. reflexivity. }
  all: erewrite invoke_single_request by (unfold single_request_cases; in_list).
  all: unfold answer; cbn [result status statusText]; rewrite Hst; reflexivity.
Qed.

(** X12: in the eleven complete clauses, when every request fails with the
    same error, the call is rejected with an [McpError] whose message is
    [Solana Tracker API error: ] followed by the error's message for an
    axios error, and [Unknown error: ] followed by it for any other
    error. *)
Theorem request_error_is_reported_with_its_message s name (args : gmap string value) e :
  name ∈ case_labels -> name <> "get_tokens_multi_graduated" ->
  result (invoke Mm s (fun _ => Rejected e) name (Some args))
    = Rejected (McpError InternalError
        ((if isAxiosError e then "Solana Tracker API error: "
          else "Unknown error: ") +:+ message Mm e)).
Proof.
  intros Hin Hne.
  repeat (apply elem_of_cons in Hin as [-> | Hin]);
    [.. | apply elem_of_nil in Hin; contradiction].
  12: contradiction Hne; reflexivity.
  7: { rewrite invoke_get_latest_tokens. destruct e; reflexivity. }
  all: erewrite invoke_single_request by (unfold single_request_cases; in_list).
  all: destruct e; reflexivity.
Qed.

(** X13: when the request of [get_latest_tokens] fails with an axios error,
    the call goes on as a call of [get_trending_tokens]: it settles as that
    call settles, and its requests are the failed one followed by the
    requests of that call. *)
Theorem get_latest_tokens_falls_into_get_trending_tokens s u (args : gmap string value) m arguments' :
  u (GET_request s "/tokens/latest" [("page", prop args "page")])
    = Rejected (AxiosError m) ->
  result (invoke Mm s u "get_latest_tokens" (Some args))
    = result (invoke Mm s u "get_trending_tokens" arguments') /\
  requests (invoke Mm s u "get_latest_tokens" (Some args))
    = GET_request s "/tokens/latest" [("page", prop args "page")]
        :: requests (invoke Mm s u "get_trending_tokens" arguments').
Proof.
  intros Hu. rewrite invoke_get_latest_tokens, Hu.
  erewrite invoke_argument_free_request by (unfold argument_free; in_list).
  split; reflexivity.
Qed.

(** X14: whatever the name and the arguments, every request goes to
    [/search] or to a url under [/tokens/] or [/deployer/]. *)
Theorem requests_go_to_known_endpoints s u name arguments :
  Forall (fun r => endpoint (url r)) (requests (invoke Mm s u name arguments)).
Proof.
  assert (Htokens : forall rest, endpoint ("/tokens/" +:+ rest))
    by (intros rest; right; exists rest; left; reflexivity).
  destruct (invoke_shape s u name arguments)
    as [[_ ->] | [(-> & _ & m & ->) | [(_ & _ & path & ps & Hin & ->)
                                      | [(-> & args & ->) | ->]]]].
  - apply Forall_nil_2.
  - apply Forall_nil_2.
  - cbn [requests]. apply Forall_cons_2; [| apply Forall_nil_2].
    cbn [url GET_request]. unfold single_request_cases in Hin.
    repeat (apply elem_of_cons in Hin as [[= -> -> ->] | Hin]);
      [.. | apply elem_of_nil in Hin; contradiction].
    all: try apply (Htokens _).
    + unfold endpoint. right. eexists. right. reflexivity.
    + unfold endpoint. left. reflexivity.
  - rewrite invoke_get_latest_tokens.
    destruct (u _) as [r | [m | c m | m]]; cbn [requests];
      repeat (apply Forall_cons_2; [apply (Htokens _) |]); apply Forall_nil_2.
  - rewrite invoke_get_tokens_multi_graduated. cbn [requests].
    apply Forall_cons_2; [apply (Htokens _) | apply Forall_nil_2].
Qed.

End Coverage.

(** ** The handler on concrete inputs *)

(** The scenario of [get_token_information]: one GET on [/tokens/ABC123]
    with the key, and the body of the 200 answer handed on. *)
Example scenario_get_token_information :
  invoke sdk_message example_state (ok symbol_ABC) "get_token_information"
      (Some {[ "tokenAddress" := VStr "ABC123" ]})
    = {| result := Fulfilled (content_json symbol_ABC);
         requests := [ {| method := GET;
                          req_baseURL := "https://data.solanatracker.io";
                          req_headers := {[ "x-api-key" := "secret" ]};
                          url := "/tokens/ABC123";
                          params := [] |} ];
         final := example_state |}.
Proof. vm_compute. reflexivity. Qed.

(** A status other than 200 is wrapped twice on its way out. *)
Example status_204_is_wrapped_twice :
  result (invoke sdk_message example_state
            (fun _ => Fulfilled {| status := 204; statusText := "No Content";
                                   data := VNull |})
            "get_tokens_volume" None)
    = Rejected (McpError InternalError
        "Unknown error: MCP error -32603: Solana Tracker API returned status code: 204: No Content").
Proof. vm_compute. reflexivity. Qed.

(** C3 (counterexample): [invoke("search_tokens", {})] does not fail before
    anything is sent.  One request goes to [/search], with none of its
    parameters serialized, and against an upstream that answers 200 the
    call succeeds with the body. *)
Lemma search_tokens_without_query_is_requested :
  ~ fails_without_request search_without_query /\
  url <$> requests search_without_query = ["/search"] /\
  (serialized ∘ params) <$> requests search_without_query = [[]] /\
  result search_without_query = Fulfilled (content_json (VStr "hit")).
Proof.
  split; [| split; [| split]]; try (vm_compute; reflexivity).
  intros [_ Hnone]. vm_compute in Hnone. discriminate Hnone.
Qed.

Lemma requests_are_GET_to_base_url_with_key_witness :
  load example_env = Fulfilled example_state /\
  Forall (fun r => method r = GET /\
                   req_baseURL r = "https://data.solanatracker.io" /\
                   relative (url r) = true /\
                   req_headers r !! "x-api-key" = Some "secret")
         (requests (invoke sdk_message example_state
                      (down_at "/tokens/latest" "Network Error" VNull)
                      "get_latest_tokens" (Some ∅))).
Proof.
  split; [reflexivity |].
  exact (requests_are_GET_to_base_url_with_key sdk_message example_env
           example_state _ _ _ eq_refl).
Defined.

Lemma missing_required_parameter_witness :
  exists r,
    requests search_without_query = [r] /\
    result search_without_query = answer sdk_message (ok (VStr "hit") r) /\
    method r = GET /\
    ("query" ∉ (serialized (params r)).*1) /\
    (("search_tokens" = "search_tokens" /\ url r = "/search") \/
     exists pre suf, ("search_tokens", (pre, "query", suf)) ∈ path_templates /\
                     url r = pre +:+ "undefined" +:+ suf).
Proof.
  pose proof (list_elem_of_lookup_2 ListTools 5 _ eq_refl) as Ht.
  refine (missing_required_parameter_is_not_checked sdk_message example_state
            (ok (VStr "hit")) _ "query" ∅ Ht _ _ _).
  - unfold case_labels. cbn. in_list.
  - cbn. in_list.
  - reflexivity.
Defined.

Lemma path_is_raw_interpolation_witness :
  (("get_token_holders_top", ("/tokens/", "tokenAddress", "/holders/top"))
     ∈ path_templates) /\
  exists r,
    requests (invoke sdk_message example_state (ok VNull) "get_token_holders_top"
                (Some {[ "tokenAddress" := VStr "a b/../c?d=e" ]})) = [r] /\
    url r = "/tokens/a b/../c?d=e/holders/top".
Proof.
  assert (Hin : ("get_token_holders_top", ("/tokens/", "tokenAddress", "/holders/top"))
                  ∈ path_templates) by (unfold path_templates; in_list).
  split; [exact Hin |].
  destruct (path_is_raw_interpolation sdk_message example_state (ok VNull) _ _ _ _
              {[ "tokenAddress" := VStr "a b/../c?d=e" ]} Hin)
    as (r & Hreq & _ & Hstr & _).
  exists r. split; [exact Hreq |].
  exact (Hstr "a b/../c?d=e" eq_refl).
Defined.

(** ** More of the handler on concrete inputs *)

Lemma unread_arguments_are_ignored_witness :
  invoke sdk_message example_state (ok symbol_ABC) "get_token_information"
      (Some {[ "tokenAddress" := VStr "ABC123" ]})
    = invoke sdk_message example_state (ok symbol_ABC) "get_token_information"
        (Some (<[ "limit" := VNum 5 ]> {[ "tokenAddress" := VStr "ABC123" ]})).
Proof.
  apply (unread_arguments_are_ignored sdk_message).
  intros k Hk. apply list_elem_of_singleton in Hk as ->. reflexivity.
Defined.

Lemma missing_arguments_throw_before_any_request_witness :
  exists m, invoke sdk_message example_state (ok symbol_ABC) "search_tokens" None
              = {| result := Rejected (OtherError m); requests := [];
                   final := example_state |}.
Proof.
  apply (missing_arguments_throw_before_any_request sdk_message).
  unfold destructured. cbn. in_list.
Defined.

Lemma undestructured_arguments_do_not_matter_witness :
  invoke sdk_message example_state (ok symbol_ABC) "get_tokens_volume" None
    = invoke sdk_message example_state (ok symbol_ABC) "get_tokens_volume"
        (Some {[ "page" := VNum 2 ]}).
Proof.
  apply (undestructured_arguments_do_not_matter sdk_message).
  compute_done.
Defined.

Lemma success_is_a_200_body_or_undefined_witness :
  (content_json symbol_ABC = VUndefined /\
   ("get_token_ath" ∉ case_labels \/
    "get_token_ath" = "get_tokens_multi_graduated")) \/
  exists r response,
    r ∈ requests (invoke sdk_message example_state (ok symbol_ABC)
                    "get_token_ath" (Some {[ "tokenAddress" := VStr "ABC123" ]})) /\
    ok symbol_ABC r = Fulfilled response /\ status response = 200%Z /\
    content_json symbol_ABC = content_json (data response).
Proof.
  apply (success_is_a_200_body_or_undefined sdk_message).
  vm_compute. reflexivity.
Defined.

Lemma rejections_are_classified_witness :
  (exists m, OtherError "Cannot destructure 'request.params.arguments' as it is undefined."
             = McpError InternalError m) \/
  (@None (gmap string value) = None /\ ("get_token_ath" ∈ destructured.*1) /\
   requests (invoke sdk_message example_state (ok symbol_ABC) "get_token_ath" None)
     = [] /\
   exists m, OtherError "Cannot destructure 'request.params.arguments' as it is undefined."
             = OtherError m) \/
  ("get_token_ath" = "get_tokens_multi_graduated" /\
   ok symbol_ABC (GET_request example_state "/tokens/multi/graduated" [])
     = Rejected (OtherError "Cannot destructure 'request.params.arguments' as it is undefined.")).
Proof.
  apply (rejections_are_classified sdk_message).
  vm_compute. reflexivity.
Defined.

Lemma status_error_is_reported_as_unknown_error_witness :
  result (invoke sdk_message example_state
            (fun _ => Fulfilled {| status := 404; statusText := "Not Found";
                                   data := VNull |})
            "get_latest_tokens" (Some ∅))
    = Rejected (McpError InternalError
        "Unknown error: MCP error -32603: Solana Tracker API returned status code: 404: Not Found").
Proof.
  apply (status_error_is_reported_as_unknown_error sdk_message example_state
           "get_latest_tokens" ∅ 404 "Not Found" VNull).
  - unfold case_labels. cbn. in_list.
  - discriminate.
  - discriminate.
Defined.

Lemma request_error_is_reported_with_its_message_witness :
  result (invoke sdk_message example_state
            (fun _ => Rejected (AxiosError "Network Error"))
            "get_latest_tokens" (Some ∅))
    = Rejected (McpError InternalError "Solana Tracker API error: Network Error").
Proof.
  apply (request_error_is_reported_with_its_message sdk_message example_state
           "get_latest_tokens" ∅ (AxiosError "Network Error")).
  - unfold case_labels. cbn. in_list.
  - discriminate.
Defined.

Lemma get_latest_tokens_falls_into_get_trending_tokens_witness :
  result (invoke sdk_message example_state
            (down_at "/tokens/latest" "Network Error" symbol_ABC)
            "get_latest_tokens" (Some ∅))
    = result (invoke sdk_message example_state
                (down_at "/tokens/latest" "Network Error" symbol_ABC)
                "get_trending_tokens" None) /\
  requests (invoke sdk_message example_state
              (down_at "/tokens/latest" "Network Error" symbol_ABC)
              "get_latest_tokens" (Some ∅))
    = GET_request example_state "/tokens/latest" [("page", prop ∅ "page")]
        :: requests (invoke sdk_message example_state
                       (down_at "/tokens/latest" "Network Error" symbol_ABC)
                       "get_trending_tokens" None).
Proof.
  apply (get_latest_tokens_falls_into_get_trending_tokens sdk_message
           example_state _ ∅ "Network Error" None).
  reflexivity.
Defined.
